(** * CustomPositionValveWithFanDevice: valve position and fan speed

    A shallow embedding of
    [custom_components/dual_smart_thermostat/hvac_device/custom_position_valve_with_fan_device.py].

    The device reads a demand percentage from the power manager, maps it to
    a valve position inside a band that depends on the HVAC mode, and
    forwards the percentage to a fan.  Both actuators are driven through
    Home Assistant service calls.

    Python values are modelled as follows.
    - [int] is [Z] (unbounded).
    - [float] is an IEEE 754 binary64 number, [spec_float] with [prec = 53]
      and [emax = 1024]; every arithmetic step rounds to nearest, ties to
      even, exactly as CPython does.
    - The demand percent is a number, an [int] or a [float]; the device
      takes whichever the power manager hands it.
    - [None]-able attributes are [option].
    - A coroutine is a function from the world to an outcome and a new world:
      log records and issued service calls survive a raised exception. *)

From Stdlib Require Import ZArith QArith String List Bool Lia.
From Stdlib Require Import Floats.SpecFloat.
Import ListNotations.

Local Open Scope string_scope.
Local Open Scope Z_scope.

(** ** Raised objects *)

(** What a [raise] carries: one of the three arithmetic errors of the
    float code below, any other instance of [Exception] (by class name),
    or an object raised outside the [Exception] hierarchy, deriving from
    [BaseException] directly.  [except Exception] catches the instances of
    [Exception] only. *)
Inductive Raised : Type :=
| OverflowError
| ValueError
| ZeroDivisionError
| Exception (class_name : string)
| BaseException (class_name : string).

(** [isinstance(e, Exception)]. *)
Definition is_Exception (e : Raised) : bool :=
  match e with
  | OverflowError | ValueError | ZeroDivisionError | Exception _ => true
  | BaseException _ => false
  end.

Definition CancelledError : Raised := BaseException "CancelledError".

Inductive Result (A : Type) : Type :=
| Ok (a : A)
| Raise (e : Raised).
Arguments Ok {A} a.
Arguments Raise {A} e.

(** ** Python floats *)

Module PyFloat.

Definition prec : Z := 53.
Definition emax : Z := 1024.

Definition float : Type := spec_float.

(** [float(z)] for an [int] that converts exactly or by rounding;
    CPython raises [OverflowError] when the integer is too large. *)
Definition of_int (z : Z) : Result float :=
  match binary_normalize prec emax z 0 false with
  | S754_infinity _ => Raise OverflowError
  | f => Ok f
  end.

(** The integer itself as mantissa with exponent 0: the exact operand of
    [int.__truediv__]. *)
Definition exact_int (z : Z) : float :=
  match z with
  | Z0 => S754_zero false
  | Zpos p => S754_finite false p 0
  | Zneg p => S754_finite true p 0
  end.

(** [a / b] on two [int]s: the correctly rounded quotient;
    [ZeroDivisionError] on a zero divisor, [OverflowError] when the
    quotient does not fit a float. *)
Definition int_truediv (a b : Z) : Result float :=
  if b =? 0 then Raise ZeroDivisionError
  else match SFdiv prec emax (exact_int a) (exact_int b) with
       | S754_infinity _ => Raise OverflowError
       | f => Ok f
       end.

Definition mul (x y : float) : float := SFmul prec emax x y.
Definition add (x y : float) : float := SFadd prec emax x y.
Definition sub (x y : float) : float := SFsub prec emax x y.
Definition abs (x : float) : float := SFabs x.

(** Mixed operands: the [int] side is converted with [float(...)] first.
    The float operations themselves never raise; they overflow to an
    infinity. *)
Definition mul_int (x : float) (n : Z) : Result float :=
  match of_int n with
  | Ok y => Ok (mul x y)
  | Raise e => Raise e
  end.

Definition int_sub (n : Z) (y : float) : Result float :=
  match of_int n with
  | Ok x => Ok (sub x y)
  | Raise e => Raise e
  end.

Definition int_add (n : Z) (y : float) : Result float :=
  match of_int n with
  | Ok x => Ok (add x y)
  | Raise e => Raise e
  end.

(** [x / n] on a [float] and an [int]: [ZeroDivisionError] on a zero
    divisor; otherwise the IEEE quotient, which may be an infinity or a
    NaN but never raises. *)
Definition div_int (x : float) (n : Z) : Result float :=
  match of_int n with
  | Ok (S754_zero _) => Raise ZeroDivisionError
  | Ok y => Ok (SFdiv prec emax x y)
  | Raise e => Raise e
  end.

(** [int(x)]: truncation toward zero; [OverflowError] on an infinity,
    [ValueError] on a NaN. *)
Definition to_int (x : float) : Result Z :=
  match x with
  | S754_zero _ => Ok 0
  | S754_infinity _ => Raise OverflowError
  | S754_nan => Raise ValueError
  | S754_finite s m e =>
      let magnitude :=
        match e with
        | Zneg k => Z.shiftr (Zpos m) (Zpos k)
        | _ => Z.shiftl (Zpos m) e
        end in
      Ok (if s then - magnitude else magnitude)
  end.

End PyFloat.

(** ** Python numbers *)

(** A number as the device meets it: an [int] or a [float]. *)
Inductive Number : Type :=
| Int (z : Z)
| Float (f : PyFloat.float).

Module Number.

(** [n / b] for an [int] [b]: [int.__truediv__] or [float.__truediv__]
    according to the type of [n]. *)
Definition truediv_int (n : Number) (b : Z) : Result PyFloat.float :=
  match n with
  | Int a => PyFloat.int_truediv a b
  | Float x => PyFloat.div_int x b
  end.

(** [n == 0]: true of the [int] 0 and of the two [float] zeros, false of
    every other number, a NaN included. *)
Definition is_zero (n : Number) : bool :=
  match n with
  | Int z => z =? 0
  | Float (S754_zero _) => true
  | Float _ => false
  end.

(** [isinstance(n, int)]. *)
Definition is_int (n : Number) : bool :=
  match n with
  | Int _ => true
  | Float _ => false
  end.

(** [lo <= n <= hi] for two [int]s [lo] and [hi] that convert to [float]
    exactly. *)
Definition between (lo hi : Z) (n : Number) : bool :=
  match n with
  | Int z => (lo <=? z) && (z <=? hi)
  | Float x =>
      SFleb (binary_normalize PyFloat.prec PyFloat.emax lo 0 false) x
      && SFleb x (binary_normalize PyFloat.prec PyFloat.emax hi 0 false)
  end.

End Number.

(** ** Home Assistant vocabulary *)

(** [homeassistant.components.climate.HVACMode].  The device lists only
    [HEAT], [COOL] and [OFF] in [hvac_modes]; the enumeration itself has
    seven members. *)
Module HVACMode.
Inductive t : Type := OFF | HEAT | COOL | HEAT_COOL | AUTO | DRY | FAN_ONLY.

Definition eqb (a b : t) : bool :=
  match a, b with
  | OFF, OFF | HEAT, HEAT | COOL, COOL | HEAT_COOL, HEAT_COOL
  | AUTO, AUTO | DRY, DRY | FAN_ONLY, FAN_ONLY => true
  | _, _ => false
  end.
End HVACMode.

(** The members of [HVACAction] that the device produces. *)
Module HVACAction.
Inductive t : Type := OFF | HEATING | COOLING | IDLE.
End HVACAction.

Definition ATTR_ENTITY_ID : string := "entity_id".
Definition VALVE_DOMAIN : string := "valve".
Definition FAN_DOMAIN : string := "fan".

Inductive Value : Type :=
| VStr (s : string)
| VInt (z : Z)
| VFloat (f : PyFloat.float).

Definition VNum (n : Number) : Value :=
  match n with
  | Int z => VInt z
  | Float f => VFloat f
  end.

(** One [hass.services.async_call(domain, service, service_data, ...)];
    the context token and [blocking=True] are the same on every call. *)
Record ServiceCall : Type := {
  domain : string;
  service : string;
  service_data : list (string * Value)
}.

(** ** Logging *)

Inductive LogLevel : Type := DEBUG | INFO | WARNING | ERROR.

Inductive LogArg : Type :=
| ArgStr (s : string)
| ArgId (id : option string)
| ArgInt (z : Z)
| ArgFloat (f : PyFloat.float)
| ArgBool (b : bool)
| ArgMode (m : HVACMode.t)
| ArgExc (e : Raised).

Definition ArgNum (n : Number) : LogArg :=
  match n with
  | Int z => ArgInt z
  | Float f => ArgFloat f
  end.

Record LogRecord : Type := {
  levelname : LogLevel;
  msg : string;
  args : list LogArg
}.

(** ** Collaborators *)

(** [EnvironmentManager]: the current temperature and the target attributes
    read with [getattr(environment, name)]; each may hold [None]. *)
Record EnvironmentManager : Type := {
  cur_temp : option PyFloat.float;
  getattr : string -> option PyFloat.float
}.

Record FeatureManager : Type := {
  is_range_mode : bool
}.

(** [HvacPowerManager] is used through two members: the side-effecting
    [update_hvac_power(strategy, target_env_attr, hvac_action)], which
    recomputes the power from the environment it holds, and the
    [hvac_power_percent] property, a number: the device neither converts
    nor checks it, so it may be an [int] or a [float], in 0..100 or not.
    Its code lives in another module; the device is verified against any
    state type [P] carrying the two members, both taken to return
    normally. *)
Class HvacPowerManager (Strategy P : Type) : Type := {
  hvac_power_percent : P -> Number;
  update_hvac_power :
    Strategy -> string -> HVACAction.t -> EnvironmentManager -> P -> P
}.

(** ** The device and its world *)

Section Device.

Context {Strategy P : Type} {power : HvacPowerManager Strategy P}.

(** The attributes of [CustomPositionValveWithFanDevice] that its methods
    read.  [hvac_mode], [is_active], [strategy] and [_target_env_attr]
    belong to the base class [GenericHVACDevice]. *)
Record Device : Type := {
  hvac_mode : HVACMode.t;
  is_active : bool;
  strategy : Strategy;
  _target_env_attr : string;
  valve_entity_id : option string;
  fan_entity_id : option string;
  environment : EnvironmentManager;
  features : FeatureManager;
  hvac_power : P
}.

(** Everything a method can read or change: the device, the service calls
    issued so far (newest first), what the transport answers to a call
    given how many calls came before it ([None]: the call returns;
    [Some e]: the awaited call raises [e]), and the log records (newest
    first). *)
Record World : Type := {
  self : Device;
  calls : list ServiceCall;
  transport : nat -> ServiceCall -> option Raised;
  records : list LogRecord
}.

Definition M (A : Type) : Type := World -> Result A * World.

Definition ret {A : Type} (a : A) : M A := fun w => (Ok a, w).

Definition bind {A B : Type} (c : M A) (k : A -> M B) : M B :=
  fun w =>
    match c w with
    | (Ok a, w') => k a w'
    | (Raise e, w') => (Raise e, w')
    end.

Definition lift {A : Type} (r : Result A) : M A := fun w => (r, w).

(** [try: body / except Exception as e: handler e]. *)
Definition try_except_Exception {A : Type} (body : M A) (handler : Raised -> M A) : M A :=
  fun w =>
    match body w with
    | (Ok a, w') => (Ok a, w')
    | (Raise e, w') => if is_Exception e then handler e w' else (Raise e, w')
    end.

Definition get_self : M Device := fun w => (Ok (self w), w).

Definition _LOGGER (level : LogLevel) (template : string) (a : list LogArg) : M unit :=
  fun w =>
    (Ok tt,
     {| self := self w; calls := calls w; transport := transport w;
        records := {| levelname := level; msg := template; args := a |} :: records w |}).

(** [self.hvac_power.update_hvac_power(strategy, target_env_attr, action)]. *)
Definition hvac_power_update (s : Strategy) (attr : string) (action : HVACAction.t) : M unit :=
  fun w =>
    let d := self w in
    (Ok tt,
     {| self := {| hvac_mode := hvac_mode d; is_active := is_active d;
                   strategy := strategy d; _target_env_attr := _target_env_attr d;
                   valve_entity_id := valve_entity_id d;
                   fan_entity_id := fan_entity_id d;
                   environment := environment d; features := features d;
                   hvac_power :=
                     update_hvac_power s attr action (environment d) (hvac_power d) |};
        calls := calls w; transport := transport w; records := records w |}).

(** [await self.hass.services.async_call(domain, service, data, ...)]. *)
Definition async_call (dom serv : string) (data : list (string * Value)) : M unit :=
  fun w =>
    let c := {| domain := dom; service := serv; service_data := data |} in
    let w' := {| self := self w; calls := c :: calls w;
                 transport := transport w; records := records w |} in
    match transport w (length (calls w)) c with
    | None => (Ok tt, w')
    | Some e => (Raise e, w')
    end.

End Device.

Arguments Device : clear implicits.
Arguments World : clear implicits.
Arguments M : clear implicits.

Declare Scope py_scope.
Delimit Scope py_scope with py.
Notation "x <- c ;; k" := (bind c (fun x => k))
  (at level 61, c at next level, right associativity) : py_scope.
Notation "c ;; k" := (bind c (fun _ => k))
  (at level 61, right associativity) : py_scope.
Local Open Scope py_scope.

Section Methods.

Context {Strategy P : Type} {power : HvacPowerManager Strategy P}.

Definition class_name : string := "CustomPositionValveWithFanDevice".

(** Custom valve position constants, set in [__init__]. *)
Definition OFF_POSITION : Z := 55.
Definition COOLING_MIN_POSITION : Z := 50.
Definition COOLING_MAX_POSITION : Z := 20.
Definition HEATING_MIN_POSITION : Z := 60.
Definition HEATING_MAX_POSITION : Z := 100.

Definition target_env_attr (d : Device Strategy P) : string :=
  if is_range_mode (features d) then "_target_temp_low" else _target_env_attr d.

Definition hvac_action : M Strategy P HVACAction.t :=
  d <- get_self ;;
  _LOGGER DEBUG "CustomPositionValveWithFanDevice hvac_action. is_active: %s, hvac_mode: %s"
    [ArgBool (is_active d); ArgMode (hvac_mode d)] ;;
  if HVACMode.eqb (hvac_mode d) HVACMode.OFF then ret HVACAction.OFF
  else if is_active d then
    if HVACMode.eqb (hvac_mode d) HVACMode.HEAT then ret HVACAction.HEATING
    else if HVACMode.eqb (hvac_mode d) HVACMode.COOL then ret HVACAction.COOLING
    else ret HVACAction.IDLE
  else ret HVACAction.IDLE.

Definition get_device_ids (d : Device Strategy P) : list (option string) :=
  [valve_entity_id d; fan_entity_id d].

Definition _calculate_valve_position : M Strategy P Z :=
  d <- get_self ;;
  if HVACMode.eqb (hvac_mode d) HVACMode.OFF then ret OFF_POSITION
  else
    let current_temp := cur_temp (environment d) in
    let target_temp := getattr (environment d) (target_env_attr d) in
    match current_temp, target_temp with
    | Some current_temp, Some target_temp =>
        let temp_difference := PyFloat.abs (PyFloat.sub current_temp target_temp) in
        action <- hvac_action ;;
        hvac_power_update (strategy d) (target_env_attr d) action ;;
        d <- get_self ;;
        normalized_diff <- lift (Number.truediv_int (hvac_power_percent (hvac_power d)) 100) ;;
        if HVACMode.eqb (hvac_mode d) HVACMode.COOL then
          let position_range := COOLING_MIN_POSITION - COOLING_MAX_POSITION in
          scaled <- lift (PyFloat.mul_int normalized_diff position_range) ;;
          position <- lift (PyFloat.int_sub COOLING_MIN_POSITION scaled) ;;
          truncated <- lift (PyFloat.to_int position) ;;
          ret (Z.max COOLING_MAX_POSITION (Z.min truncated COOLING_MIN_POSITION))
        else if HVACMode.eqb (hvac_mode d) HVACMode.HEAT then
          let position_range := HEATING_MAX_POSITION - HEATING_MIN_POSITION in
          scaled <- lift (PyFloat.mul_int normalized_diff position_range) ;;
          position <- lift (PyFloat.int_add HEATING_MIN_POSITION scaled) ;;
          truncated <- lift (PyFloat.to_int position) ;;
          ret (Z.max HEATING_MIN_POSITION (Z.min truncated HEATING_MAX_POSITION))
        else ret OFF_POSITION
    | _, _ =>
        _LOGGER WARNING "Temperature values not available, using default position" [] ;;
        ret OFF_POSITION
    end.

Definition _calculate_fan_speed : M Strategy P Number :=
  d <- get_self ;;
  if HVACMode.eqb (hvac_mode d) HVACMode.OFF then ret (Int 0)
  else ret (hvac_power_percent (hvac_power d)).

Definition _async_set_valve_position (position : Z) : M Strategy P unit :=
  d <- get_self ;;
  _LOGGER INFO "%s. Setting valve position to %s%% for entity %s"
    [ArgStr class_name; ArgInt position; ArgId (valve_entity_id d)] ;;
  match valve_entity_id d with
  | Some valve =>
      try_except_Exception
        (async_call VALVE_DOMAIN "set_valve_position"
           [(ATTR_ENTITY_ID, VStr valve); ("position", VInt position)] ;;
         _LOGGER DEBUG "Successfully set valve position to %s%%" [ArgInt position])
        (fun e =>
           _LOGGER ERROR "Error setting valve position for entity %s to %s%%. Error: %s"
             [ArgId (valve_entity_id d); ArgInt position; ArgExc e])
  | None => ret tt
  end.

Definition _async_set_fan_speed (speed_percent : Number) : M Strategy P unit :=
  d <- get_self ;;
  _LOGGER INFO "%s. Setting fan speed to %s%% for entity %s"
    [ArgStr class_name; ArgNum speed_percent; ArgId (fan_entity_id d)] ;;
  match fan_entity_id d with
  | Some fan =>
      try_except_Exception
        ((if Number.is_zero speed_percent then
            async_call FAN_DOMAIN "turn_off" [(ATTR_ENTITY_ID, VStr fan)]
          else
            async_call FAN_DOMAIN "set_percentage"
              [(ATTR_ENTITY_ID, VStr fan); ("percentage", VNum speed_percent)]) ;;
         _LOGGER DEBUG "Successfully set fan speed to %s%%" [ArgNum speed_percent])
        (fun e =>
           _LOGGER ERROR "Error setting fan speed for entity %s to %s%%. Error: %s"
             [ArgId (fan_entity_id d); ArgNum speed_percent; ArgExc e])
  | None => ret tt
  end.

Definition is_None {A : Type} (o : option A) : bool :=
  match o with None => true | Some _ => false end.

Definition async_turn_on : M Strategy P unit :=
  d <- get_self ;;
  _LOGGER INFO "%s. Setting valve position and fan speed for entities %s, %s"
    [ArgStr class_name; ArgId (valve_entity_id d); ArgId (fan_entity_id d)] ;;
  if is_None (valve_entity_id d) || is_None (fan_entity_id d) then
    _LOGGER WARNING "Valve or fan entity ID is None" []
  else
    valve_position <- _calculate_valve_position ;;
    _async_set_valve_position valve_position ;;
    fan_speed <- _calculate_fan_speed ;;
    _async_set_fan_speed fan_speed.

Definition async_turn_off : M Strategy P unit :=
  d <- get_self ;;
  _LOGGER INFO "%s. Turning off valve and fan for entities %s, %s"
    [ArgStr class_name; ArgId (valve_entity_id d); ArgId (fan_entity_id d)] ;;
  (if negb (is_None (valve_entity_id d)) then _async_set_valve_position OFF_POSITION
   else ret tt) ;;
  (if negb (is_None (fan_entity_id d)) then _async_set_fan_speed (Int 0)
   else ret tt) ;;
  hvac_power_update (strategy d) (target_env_attr d) HVACAction.OFF.

(** [async_control_hvac]: the control logic of [GenericHVACDevice] runs
    first; [base] stands for it. *)
Definition async_control_hvac (base : M Strategy P unit) : M Strategy P unit :=
  _LOGGER DEBUG "CustomPositionValveWithFanDevice async_control_hvac called" [] ;;
  base ;;
  d <- get_self ;;
  if is_active d && negb (HVACMode.eqb (hvac_mode d) HVACMode.OFF) then
    valve_position <- _calculate_valve_position ;;
    fan_speed <- _calculate_fan_speed ;;
    _async_set_valve_position valve_position ;;
    _async_set_fan_speed fan_speed
  else ret tt.

End Methods.

(** ** The float pipelines of the two bands

    The arithmetic of [_calculate_valve_position] for a demand percent [d],
    an [int] or a [float], from the division by 100 to the clamp, as pure
    functions. *)

Definition cool_pipeline (d : Number) : Result Z :=
match Number.truediv_int d 100 with
| Raise e => Raise e
| Ok normalized_diff =>
    match PyFloat.mul_int normalized_diff (COOLING_MIN_POSITION - COOLING_MAX_POSITION) with
    | Raise e => Raise e
    | Ok scaled =>
        match PyFloat.int_sub COOLING_MIN_POSITION scaled with
        | Raise e => Raise e
        | Ok position =>
            match PyFloat.to_int position with
            | Raise e => Raise e
            | Ok truncated =>
                Ok (Z.max COOLING_MAX_POSITION (Z.min truncated COOLING_MIN_POSITION))
            end
        end
    end
end.

Definition heat_pipeline (d : Number) : Result Z :=
match Number.truediv_int d 100 with
| Raise e => Raise e
| Ok normalized_diff =>
    match PyFloat.mul_int normalized_diff (HEATING_MAX_POSITION - HEATING_MIN_POSITION) with
    | Raise e => Raise e
    | Ok scaled =>
        match PyFloat.int_add HEATING_MIN_POSITION scaled with
        | Raise e => Raise e
        | Ok position =>
            match PyFloat.to_int position with
            | Raise e => Raise e
            | Ok truncated =>
                Ok (Z.max HEATING_MIN_POSITION (Z.min truncated HEATING_MAX_POSITION))
            end
        end
    end
end.

(** ** The mapping as the specification words it

    Exact rational arithmetic, truncation toward zero, then the clamp. *)

Module Spec.

Definition truncate (q : Q) : Z := Z.quot (Qnum q) (Zpos (Qden q)).

Definition clamp (lo hi x : Z) : Z := Z.max lo (Z.min x hi).

(** COOL: [min_pos - demand/100 * (min_pos - max_pos)], clamped to [20, 50],
    at a rational demand percent. *)
Definition cool_interpolation (demand_percent : Q) : Z :=
clamp 20 50
  (truncate (Qminus (inject_Z 50)
               (Qmult (Qdiv demand_percent (inject_Z 100))
                      (Qminus (inject_Z 50) (inject_Z 20))))).

(** HEAT: [min_pos + demand/100 * (max_pos - min_pos)], clamped to [60, 100],
    at a rational demand percent. *)
Definition heat_interpolation (demand_percent : Q) : Z :=
clamp 60 100
  (truncate (Qplus (inject_Z 60)
               (Qmult (Qdiv demand_percent (inject_Z 100))
                      (Qminus (inject_Z 100) (inject_Z 60))))).

(** The same at an integer demand percent. *)
Definition cool_position (demand_percent : Z) : Z :=
cool_interpolation (inject_Z demand_percent).

Definition heat_position (demand_percent : Z) : Z :=
heat_interpolation (inject_Z demand_percent).


End Spec.

(** ** What the actuators were last told

    The last command issued to an entity of a domain, read off the list of
    service calls (newest first). *)



(** ** A scripted power manager

    A concrete [HvacPowerManager] for running the device: the state is the
    current percent and the percents that later refreshes will produce. *)

Record Scripted : Type := {
  percent : Number;
  upcoming : list Number
}.

#[export] Instance scripted_power : HvacPowerManager unit Scripted := {
  hvac_power_percent := percent;
  update_hvac_power := fun _ _ _ _ p =>
    match upcoming p with
    | [] => p
    | x :: rest => {| percent := x; upcoming := rest |}
    end
}.

Definition reliable : nat -> ServiceCall -> option Raised := fun _ _ => None.

Definition demo_environment (current target : option PyFloat.float) : EnvironmentManager :=
{| cur_temp := current; getattr := fun _ => target |}.

Definition demo_device (mode : HVACMode.t) (valve fan : option string)
  (current target : option PyFloat.float) (p : Scripted) : Device unit Scripted :=
{| hvac_mode := mode; is_active := true; strategy := tt;
   _target_env_attr := "_target_temp";
   valve_entity_id := valve; fan_entity_id := fan;
   environment := demo_environment current target;
   features := {| is_range_mode := false |};
   hvac_power := p |}.

Definition demo_world (d : Device unit Scripted)
  (t : nat -> ServiceCall -> option Raised) : World unit Scripted :=
{| self := d; calls := []; transport := t; records := [] |}.

(** 25.0 and 20.0 as binary64 values. *)
Definition t25 : PyFloat.float := S754_finite false 7036874417766400 (-48).
Definition t20 : PyFloat.float := S754_finite false 5629499534213120 (-48).

(** Float demand percents: 100.0, 72.5, 3.3333333333333335 (the float
    next above 10/3) and 2.4999999999999996 (the float next below 5/2). *)
Definition f100 : PyFloat.float := S754_finite false 7036874417766400 (-46).
Definition f72_5 : PyFloat.float := S754_finite false 5101733952880640 (-46).

(** A transport on which every call raises [e]. *)
Definition failing (e : Raised) : nat -> ServiceCall -> option Raised :=
fun _ _ => Some e.

(** A zone at 25 degrees with a target of 20, valve and fan present, whose
    power manager holds 10 percent and will hold [d] after a refresh. *)
Definition zone_at (mode : HVACMode.t) (d : Number) : World unit Scripted :=
demo_world
  (demo_device mode (Some "valve.zone") (Some "fan.zone") (Some t25) (Some t20)
     {| percent := Int 10; upcoming := [d] |})
  reliable.

(** The same zone holding [d] percent with no refresh scripted, on a given
    transport. *)
Definition zone_holding (mode : HVACMode.t) (d : Number)
  (t : nat -> ServiceCall -> option Raised) : World unit Scripted :=
demo_world
  (demo_device mode (Some "valve.zone") (Some "fan.zone") (Some t25) (Some t20)
     {| percent := d; upcoming := [] |})
  t.

(** A zone whose current temperature is [None]; it holds 70 percent and a
    refresh would bring 10. *)
Definition blind_zone (mode : HVACMode.t) (valve fan : option string)
  (t : nat -> ServiceCall -> option Raised) : World unit Scripted :=
demo_world
  (demo_device mode valve fan None (Some t20)
     {| percent := Int 70; upcoming := [Int 10] |})
  t.

(** ** Vocabulary of the statements *)

Section Observations.

Context {Strategy P : Type} {power : HvacPowerManager Strategy P}.

(** The world with more log records and more issued calls, each list
    newest first. *)
Definition extended (w : World Strategy P) (cs : list ServiceCall) (rs : list LogRecord)
  : World Strategy P :=
{| self := self w; calls := cs ++ calls w; transport := transport w;
   records := rs ++ records w |}.

Definition logged (w : World Strategy P) (rs : list LogRecord) : World Strategy P :=
extended w [] rs.

(** The world after the demand refresh of [_calculate_valve_position]:
    [hvac_action] has logged its debug record and the power manager has
    recomputed its state. *)
Definition refreshed (w : World Strategy P) : World Strategy P :=
snd ((action <- hvac_action ;;
      hvac_power_update (strategy (self w)) (target_env_attr (self w)) action) w).

(** The demand percent read by the interpolation, after the refresh. *)
Definition demand (w : World Strategy P) : Number :=
hvac_power_percent (hvac_power (self (refreshed w))).

(** The demand percent the power manager holds now, without a refresh. *)
Definition held_demand (w : World Strategy P) : Number :=
hvac_power_percent (hvac_power (self w)).

(** Both temperatures are there. *)
Definition temperatures_available (w : World Strategy P) : Prop :=
cur_temp (environment (self w)) <> None /\
getattr (environment (self w)) (target_env_attr (self w)) <> None.

(** What the transport answers to the next call never escapes
    [except Exception]. *)
Definition next_call_contained (w : World Strategy P) : Prop :=
forall c e, transport w (length (calls w)) c = Some e -> is_Exception e = true.

(** The same for every call, now and later. *)
Definition transport_contained (w : World Strategy P) : Prop :=
forall n c e, transport w n c = Some e -> is_Exception e = true.

End Observations.

Definition valve_command (valve : string) (position : Z) : ServiceCall :=
{| domain := VALVE_DOMAIN; service := "set_valve_position";
   service_data := [(ATTR_ENTITY_ID, VStr valve); ("position", VInt position)] |}.

Definition fan_off_command (fan : string) : ServiceCall :=
{| domain := FAN_DOMAIN; service := "turn_off";
   service_data := [(ATTR_ENTITY_ID, VStr fan)] |}.

Definition fan_percentage_command (fan : string) (speed_percent : Number) : ServiceCall :=
{| domain := FAN_DOMAIN; service := "set_percentage";
   service_data := [(ATTR_ENTITY_ID, VStr fan); ("percentage", VNum speed_percent)] |}.

Definition fan_command (fan : string) (speed_percent : Number) : ServiceCall :=
if Number.is_zero speed_percent then fan_off_command fan
else fan_percentage_command fan speed_percent.

(** The log records of the two setters. *)
Definition valve_info_record (position : Z) (valve : option string) : LogRecord :=
{| levelname := INFO; msg := "%s. Setting valve position to %s%% for entity %s";
   args := [ArgStr class_name; ArgInt position; ArgId valve] |}.

Definition valve_success_record (position : Z) : LogRecord :=
{| levelname := DEBUG; msg := "Successfully set valve position to %s%%";
   args := [ArgInt position] |}.

Definition valve_error_record (position : Z) (valve : option string) (e : Raised) : LogRecord :=
{| levelname := ERROR;
   msg := "Error setting valve position for entity %s to %s%%. Error: %s";
   args := [ArgId valve; ArgInt position; ArgExc e] |}.

Definition fan_info_record (speed_percent : Number) (fan : option string) : LogRecord :=
{| levelname := INFO; msg := "%s. Setting fan speed to %s%% for entity %s";
   args := [ArgStr class_name; ArgNum speed_percent; ArgId fan] |}.

Definition fan_success_record (speed_percent : Number) : LogRecord :=
{| levelname := DEBUG; msg := "Successfully set fan speed to %s%%";
   args := [ArgNum speed_percent] |}.

Definition fan_error_record (speed_percent : Number) (fan : option string) (e : Raised)
  : LogRecord :=
{| levelname := ERROR;
   msg := "Error setting fan speed for entity %s to %s%%. Error: %s";
   args := [ArgId fan; ArgNum speed_percent; ArgExc e] |}.


(** Checking a predicate on [lo, lo+1, ..., lo+n-1]. *)
Fixpoint forall_from (f : Z -> bool) (lo : Z) (n : nat) : bool :=
match n with
| O => true
| S k => f lo && forall_from f (lo + 1) k
end.

Definition Result_eqb (r : Result Z) (z : Z) : bool :=
match r with
| Ok p => p =? z
| Raise _ => false
end.

(** A float that is a zero or a finite number whose mantissa digits plus
    exponent do not exceed [k]: its absolute value is below [2 ^ k]. *)
Definition finite_below (k : Z) (x : spec_float) : Prop :=
match x with
| S754_zero _ => True
| S754_finite _ m e => Zpos (digits2_pos m) + e <= k
| _ => False
end.

(** A demand percent of magnitude below [2 ^ 960], far beyond 0..100: an
    [int] or a finite [float]. *)
Definition moderate (n : Number) : Prop :=
match n with
| Int z => Z.abs z < 2 ^ 960
| Float x => finite_below 960 x
end.

(** ** Vocabulary of the further statements *)

(** What [_calculate_valve_position] computes in a mode other than OFF once
    the demand is refreshed: the quotient by 100 in every such mode, the
    interpolation in COOL and HEAT only. *)
Definition band_pipeline (mode : HVACMode.t) (d : Number) : Result Z :=
match mode with
| HVACMode.COOL => cool_pipeline d
| HVACMode.HEAT => heat_pipeline d
| _ => match Number.truediv_int d 100 with
       | Ok _ => Ok OFF_POSITION
       | Raise e => Raise e
       end
end.

(** The exact position of a mode at an integer demand percent. *)
Definition band_position (mode : HVACMode.t) (d : Z) : Z :=
match mode with
| HVACMode.COOL => Spec.cool_position d
| HVACMode.HEAT => Spec.heat_position d
| _ => OFF_POSITION
end.

(** The position a call to the valve domain carries in its data. *)
Definition commanded_position (c : ServiceCall) : option Z :=
if String.eqb (domain c) VALVE_DOMAIN then
  match find (fun kv => String.eqb (fst kv) "position") (service_data c) with
  | Some (_, VInt p) => Some p
  | _ => None
  end
else None.

(** The records the other methods log first. *)
Definition hvac_action_record (active : bool) (mode : HVACMode.t) : LogRecord :=
{| levelname := DEBUG;
   msg := "CustomPositionValveWithFanDevice hvac_action. is_active: %s, hvac_mode: %s";
   args := [ArgBool active; ArgMode mode] |}.

Definition turn_on_record (valve fan : option string) : LogRecord :=
{| levelname := INFO;
   msg := "%s. Setting valve position and fan speed for entities %s, %s";
   args := [ArgStr class_name; ArgId valve; ArgId fan] |}.

Definition turn_off_record (valve fan : option string) : LogRecord :=
{| levelname := INFO;
   msg := "%s. Turning off valve and fan for entities %s, %s";
   args := [ArgStr class_name; ArgId valve; ArgId fan] |}.

Definition control_record : LogRecord :=
{| levelname := DEBUG;
   msg := "CustomPositionValveWithFanDevice async_control_hvac called";
   args := [] |}.

(** A zone with separate single and low targets, in or out of range
    mode. *)
Definition ranged_zone (mode : HVACMode.t) (range_mode : bool)
  (single low : option PyFloat.float) : World unit Scripted :=
demo_world
  {| hvac_mode := mode; is_active := true; strategy := tt;
     _target_env_attr := "_target_temp";
     valve_entity_id := Some "valve.zone"; fan_entity_id := Some "fan.zone";
     environment :=
       {| cur_temp := Some t25;
          getattr := fun name =>
            if String.eqb name "_target_temp_low" then low else single |};
     features := {| is_range_mode := range_mode |};
     hvac_power := {| percent := Int 70; upcoming := [Int 40] |} |}
  reliable.

(** The zone of [zone_at] with its activity flag and temperatures chosen. *)
Definition zone_with (mode : HVACMode.t) (active : bool)
  (current target : PyFloat.float) (d : Number) : World unit Scripted :=
demo_world
  {| hvac_mode := mode; is_active := active; strategy := tt;
     _target_env_attr := "_target_temp";
     valve_entity_id := Some "valve.zone"; fan_entity_id := Some "fan.zone";
     environment := demo_environment (Some current) (Some target);
     features := {| is_range_mode := false |};
     hvac_power := {| percent := Int 10; upcoming := [d] |} |}
  reliable.

(** A base control that does nothing, and one that is cancelled. *)
Definition idle_base : M unit Scripted unit := ret tt.
Definition cancelled_base : M unit Scripted unit := fun w => (Raise CancelledError, w).

(** * Facts *)

(** ** Binary64 rounding stays finite below the overflow threshold *)

Lemma digits2_pos_bounds p :
  2 ^ (Zpos (digits2_pos p) - 1) <= Zpos p < 2 ^ Zpos (digits2_pos p).
Proof.
  induction p as [p IH|p IH|]; cbn [digits2_pos].
  - rewrite Pos2Z.inj_succ.
    replace (Z.succ (Zpos (digits2_pos p)) - 1) with (Z.succ (Zpos (digits2_pos p) - 1)) by lia.
    rewrite !Z.pow_succ_r by lia. lia.
  - rewrite Pos2Z.inj_succ.
    replace (Z.succ (Zpos (digits2_pos p)) - 1) with (Z.succ (Zpos (digits2_pos p) - 1)) by lia.
    rewrite !Z.pow_succ_r by lia. lia.
  - simpl. lia.
Qed.

Lemma Zdigits2_nonneg m : 0 <= Zdigits2 m.
Proof. destruct m; simpl; lia. Qed.

Lemma Zdigits2_gt m : 0 <= m -> m < 2 ^ Zdigits2 m.
Proof.
  destruct m as [|p|p]; intros H; simpl Zdigits2; [simpl; lia| |lia].
  apply digits2_pos_bounds.
Qed.

Lemma Zdigits2_le m k : 0 <= m -> 0 <= k -> m < 2 ^ k -> Zdigits2 m <= k.
Proof.
  destruct m as [|p|p]; intros Hm Hk Hlt; simpl Zdigits2; [lia| |lia].
  pose proof (digits2_pos_bounds p) as [Hlo _].
  assert (2 ^ (Zpos (digits2_pos p) - 1) < 2 ^ k) by lia.
  apply Z.pow_lt_mono_r_iff in H; lia.
Qed.

Lemma fexp64 x : fexp 53 1024 x = Z.max (x - 53) (-1074).
Proof. reflexivity. Qed.

Lemma shr_m_shr_1 r : 0 <= shr_m r -> shr_m (shr_1 r) = shr_m r / 2.
Proof.
  destruct r as [m r s]; cbn [shr_m].
  destruct m as [|[p|p|]|p]; intros H; cbn [shr_1 shr_m]; try lia; try reflexivity.
  - rewrite Pos2Z.inj_xI. apply Z.div_unique with (r := 1); lia.
  - rewrite Pos2Z.inj_xO. apply Z.div_unique with (r := 0); lia.
Qed.

Lemma shr_m_iter p : forall r,
  0 <= shr_m r -> shr_m (iter_pos shr_1 p r) = shr_m r / 2 ^ Zpos p.
Proof.
  assert (Hpow : forall q, 0 < 2 ^ Zpos q) by (intros q; apply Z.pow_pos_nonneg; lia).
  induction p as [p IH|p IH|]; intros r Hr; cbn [iter_pos].
  - pose proof (Hpow p) as Hp.
    assert (H1 : 0 <= shr_m (shr_1 r))
      by (rewrite shr_m_shr_1 by assumption; apply Z.div_pos; lia).
    assert (H2 : 0 <= shr_m (iter_pos shr_1 p (shr_1 r)))
      by (rewrite IH by assumption; apply Z.div_pos; lia).
    rewrite (IH _ H2), (IH _ H1), shr_m_shr_1 by assumption.
    rewrite !Z.div_div by lia.
    f_equal.
    replace (Zpos p~1) with (1 + Zpos p + Zpos p) by (rewrite (Pos2Z.inj_xI p); lia).
    rewrite !Z.pow_add_r by lia. lia.
  - pose proof (Hpow p) as Hp.
    assert (H2 : 0 <= shr_m (iter_pos shr_1 p r))
      by (rewrite IH by assumption; apply Z.div_pos; lia).
    rewrite (IH _ H2), (IH _ Hr).
    rewrite !Z.div_div by lia.
    f_equal.
    replace (Zpos p~0) with (Zpos p + Zpos p) by (rewrite (Pos2Z.inj_xO p); lia).
    rewrite !Z.pow_add_r by lia. lia.
  - rewrite shr_m_shr_1 by assumption. reflexivity.
Qed.

Lemma shr_record_of_loc_m m l : shr_m (shr_record_of_loc m l) = m.
Proof. destruct l as [|[| |]]; reflexivity. Qed.

(** One shift to the exponent dictated by the format keeps a nonnegative
    mantissa nonnegative and does not increase the magnitude bound. *)
Lemma shr_fexp_bound m e l k :
  0 <= m -> Zdigits2 m + e <= k -> e <= k -> -1074 <= k ->
  0 <= shr_m (fst (shr_fexp 53 1024 m e l)) /\
  Zdigits2 (shr_m (fst (shr_fexp 53 1024 m e l))) + snd (shr_fexp 53 1024 m e l) <= k /\
  snd (shr_fexp 53 1024 m e l) <= k.
Proof.
  intros Hm HD He Hk.
  unfold shr_fexp, shr. rewrite fexp64.
  destruct (Z.max (Zdigits2 m + e - 53) (-1074) - e) as [|p|p] eqn:Hn;
    cbn [fst snd]; rewrite ?shr_record_of_loc_m; try (repeat split; lia).
  assert (Hpow : 0 < 2 ^ Zpos p) by (apply Z.pow_pos_nonneg; lia).
  rewrite shr_m_iter by (rewrite shr_record_of_loc_m; assumption).
  rewrite shr_record_of_loc_m.
  split; [apply Z.div_pos; lia|].
  split; [|lia].
  assert (Hfit : Zdigits2 (m / 2 ^ Zpos p) <= k - (e + Zpos p)).
  { apply Zdigits2_le; [apply Z.div_pos; lia|lia|].
    apply Z.div_lt_upper_bound; [lia|].
    rewrite <- Z.pow_add_r by lia.
    pose proof (Zdigits2_gt m Hm) as Hlt.
    assert (2 ^ Zdigits2 m <= 2 ^ (Zpos p + (k - (e + Zpos p))))
      by (apply Z.pow_le_mono_r; lia).
    lia. }
  lia.
Qed.

Lemma round_nearest_even_bound m l :
  0 <= m ->
  0 <= round_nearest_even m l /\ Zdigits2 (round_nearest_even m l) <= Zdigits2 m + 1.
Proof.
  intros Hm.
  assert (Hsucc : Zdigits2 (m + 1) <= Zdigits2 m + 1).
  { pose proof (Zdigits2_nonneg m). pose proof (Zdigits2_gt m Hm).
    apply Zdigits2_le; [lia|lia|].
    rewrite Z.pow_add_r by lia. lia. }
  unfold round_nearest_even.
  destruct l as [|[| |]]; try destruct (Z.even m); split; lia.
Qed.

(** Rounding a nonnegative mantissa whose magnitude is at most [k] gives a
    zero or a finite float of magnitude at most [k + 1]: no infinity and
    no NaN as long as [k] stays below the overflow threshold. *)
Lemma binary_round_aux_finite s m e l k :
  0 <= m -> Zdigits2 m + e <= k -> e <= k -> -1074 <= k <= 970 ->
  finite_below (k + 1) (binary_round_aux 53 1024 s m e l).
Proof.
  intros Hm HD He Hk.
  unfold binary_round_aux.
  pose proof (shr_fexp_bound m e l k Hm HD He ltac:(lia)) as (H1 & H2 & H3).
  destruct (shr_fexp 53 1024 m e l) as [mrs1 e1]. cbn [fst snd] in H1, H2, H3.
  pose proof (round_nearest_even_bound (shr_m mrs1) (loc_of_shr_record mrs1) H1)
    as [H4 H5].
  set (m1 := round_nearest_even (shr_m mrs1) (loc_of_shr_record mrs1)) in *.
  pose proof (shr_fexp_bound m1 e1 loc_Exact (k + 1) H4 ltac:(lia) ltac:(lia) ltac:(lia))
    as (H6 & H7 & H8).
  destruct (shr_fexp 53 1024 m1 e1 loc_Exact) as [mrs2 e2]. cbn [fst snd] in H6, H7, H8.
  destruct (shr_m mrs2) as [|p|p]; [exact I| |lia].
  replace (e2 <=? 1024 - 53) with true by (symmetry; apply Z.leb_le; lia).
  simpl Zdigits2 in H7. exact H7.
Qed.

Lemma finite_below_weaken k k' x : k <= k' -> finite_below k x -> finite_below k' x.
Proof. destruct x; simpl; intros; try assumption; lia. Qed.

Lemma iter_xO_value m d : Zpos (Pos.iter xO m d) = Zpos m * 2 ^ Zpos d.
Proof.
  induction d as [|d IH] using Pos.peano_ind.
  - simpl. lia.
  - rewrite Pos.iter_succ, Pos2Z.inj_xO, IH, Pos2Z.inj_succ, Z.pow_succ_r by lia. lia.
Qed.

Lemma iter_xO_digits m d :
  Zpos (digits2_pos (Pos.iter xO m d)) = Zpos (digits2_pos m) + Zpos d.
Proof.
  induction d as [|d IH] using Pos.peano_ind.
  - simpl. lia.
  - rewrite Pos.iter_succ. cbn [digits2_pos]. rewrite Pos2Z.inj_succ, IH. lia.
Qed.

(** Aligning to a smaller exponent keeps the value. *)
Lemma shl_align_value m e e' :
  e' <= e -> Zpos (fst (shl_align m e e')) = Zpos m * 2 ^ (e - e').
Proof.
  intros Hle. unfold shl_align.
  destruct (e' - e) as [|p|p] eqn:Hd; cbn [fst].
  - replace (e - e') with 0 by lia. simpl. lia.
  - lia.
  - rewrite iter_xO_value. f_equal. f_equal. lia.
Qed.

(** Aligning never increases the exponent and keeps digits plus exponent. *)
Lemma shl_align_magnitude m e e' :
  Zpos (digits2_pos (fst (shl_align m e e'))) + snd (shl_align m e e')
    = Zpos (digits2_pos m) + e /\
  snd (shl_align m e e') <= e.
Proof.
  unfold shl_align.
  destruct (e' - e) as [|p|p] eqn:Hd; cbn [fst snd]; try (split; lia).
  rewrite iter_xO_digits. split; lia.
Qed.

Lemma binary_round_finite s m e k :
  Zpos (digits2_pos m) + e <= k -> -1074 <= k <= 970 ->
  finite_below (k + 1) (binary_round 53 1024 s m e).
Proof.
  intros HD Hk. unfold binary_round.
  pose proof (shl_align_magnitude m e (fexp 53 1024 (Zpos (digits2_pos m) + e)))
    as [Hmag Hexp].
  destruct (shl_align m e (fexp 53 1024 (Zpos (digits2_pos m) + e))) as [mz ez].
  cbn [fst snd] in Hmag, Hexp.
  apply binary_round_aux_finite; simpl Zdigits2; lia.
Qed.

Lemma binary_normalize_finite z e k :
  Zdigits2 z + e <= k -> -1074 <= k <= 970 ->
  finite_below (k + 1) (binary_normalize 53 1024 z e false).
Proof.
  intros HD Hk. destruct z as [|p|p]; cbn [binary_normalize].
  - exact I.
  - apply binary_round_finite; assumption.
  - apply binary_round_finite; assumption.
Qed.

(** Multiplication. *)
Lemma SFmul_finite x y kx ky :
  finite_below kx x -> finite_below ky y -> -1074 <= kx + ky <= 970 ->
  finite_below (kx + ky + 1) (SFmul 53 1024 x y).
Proof.
  destruct x as [sx|sx| |sx mx ex], y as [sy|sy| |sy my ey]; cbn [finite_below SFmul];
    intros Hx Hy Hk; try exact I; try contradiction.
  pose proof (digits2_pos_bounds mx) as [_ Hmx].
  pose proof (digits2_pos_bounds my) as [_ Hmy].
  assert (Hprod : Zdigits2 (Zpos (mx * my)) <= Zpos (digits2_pos mx) + Zpos (digits2_pos my)).
  { apply Zdigits2_le; [lia|lia|].
    rewrite Z.pow_add_r, Pos2Z.inj_mul by lia. nia. }
  apply binary_round_aux_finite; lia.
Qed.

Lemma Zdigits2_abs z : Zdigits2 (Z.abs z) = Zdigits2 z.
Proof. destruct z; reflexivity. Qed.

(** The aligned mantissa of a float of magnitude at most [k]. *)
Lemma aligned_bound m e ez k :
  Zpos (digits2_pos m) + e <= k -> ez <= e ->
  0 < Zpos (fst (shl_align m e ez)) < 2 ^ (k - ez).
Proof.
  intros HD Hle. rewrite shl_align_value by assumption.
  pose proof (digits2_pos_bounds m) as [_ Hm].
  assert (0 < 2 ^ (e - ez)) by (apply Z.pow_pos_nonneg; lia).
  split; [lia|].
  assert (2 ^ Zpos (digits2_pos m) * 2 ^ (e - ez) <= 2 ^ (k - ez)).
  { rewrite <- Z.pow_add_r by lia. apply Z.pow_le_mono_r; lia. }
  nia.
Qed.

(** A sum or difference of two aligned mantissas. *)
Lemma aligned_combination_finite z a b ez k :
  0 < a < 2 ^ (k - ez) -> 0 < b < 2 ^ (k - ez) -> Z.abs z <= a + b ->
  -1074 <= k + 1 <= 970 ->
  finite_below (k + 2) (binary_normalize 53 1024 z ez false).
Proof.
  intros Ha Hb Hz Hk.
  assert (Hpos : 0 <= k - ez).
  { destruct (Z.le_gt_cases 0 (k - ez)) as [|Hneg]; [assumption|].
    rewrite (Z.pow_neg_r 2 (k - ez)) in Ha by lia. lia. }
  replace (k + 2) with (k + 1 + 1) by lia.
  apply binary_normalize_finite; [|assumption].
  rewrite <- Zdigits2_abs.
  assert (Zdigits2 (Z.abs z) <= k - ez + 1); [|lia].
  apply Zdigits2_le; [lia|lia|].
  rewrite Z.pow_add_r by lia. lia.
Qed.

Lemma SFsub_finite x y k :
  finite_below k x -> finite_below k y -> -1074 <= k + 1 <= 970 ->
  finite_below (k + 2) (SFsub 53 1024 x y).
Proof.
  destruct x as [sx|sx| |sx mx ex], y as [sy|sy| |sy my ey]; cbn [finite_below SFsub];
    intros Hx Hy Hk; try contradiction.
  - destruct sx, sy; exact I.
  - cbn [finite_below]. lia.
  - cbn [finite_below]. lia.
  - pose proof (aligned_bound mx ex (Z.min ex ey) k Hx ltac:(lia)) as Ha.
    pose proof (aligned_bound my ey (Z.min ex ey) k Hy ltac:(lia)) as Hb.
    eapply aligned_combination_finite; [exact Ha|exact Hb| |assumption].
    change (IntDef.Z.min ex ey) with (Z.min ex ey).
    unfold cond_Zopp, IntDef.Z.sub. destruct sx, sy; lia.
Qed.

Lemma SFadd_finite x y k :
  finite_below k x -> finite_below k y -> -1074 <= k + 1 <= 970 ->
  finite_below (k + 2) (SFadd 53 1024 x y).
Proof.
  destruct x as [sx|sx| |sx mx ex], y as [sy|sy| |sy my ey]; cbn [finite_below SFadd];
    intros Hx Hy Hk; try contradiction.
  - destruct sx, sy; exact I.
  - cbn [finite_below]. lia.
  - cbn [finite_below]. lia.
  - pose proof (aligned_bound mx ex (Z.min ex ey) k Hx ltac:(lia)) as Ha.
    pose proof (aligned_bound my ey (Z.min ex ey) k Hy ltac:(lia)) as Hb.
    eapply aligned_combination_finite; [exact Ha|exact Hb| |assumption].
    change (IntDef.Z.min ex ey) with (Z.min ex ey).
    unfold cond_Zopp, IntDef.Z.sub. destruct sx, sy; lia.
Qed.

(** Division of two exact integers. *)
Lemma SFdiv_core_finite p q k :
  Zpos p < 2 ^ k -> 0 <= k ->
  let '(mz, ez, _) := SFdiv_core_binary 53 1024 (Zpos p) 0 (Zpos q) 0 in
  0 <= mz /\ Zdigits2 mz + ez <= k /\ ez <= k.
Proof.
  intros Hp Hk. unfold SFdiv_core_binary.
  set (e' := Z.min (fexp 53 1024 _) (0 - 0)).
  assert (He' : e' <= 0) by (subst e'; apply Z.le_min_r).
  set (m' := match 0 - 0 - e' with Z0 => Zpos p | Zpos _ => Z.shiftl (Zpos p) (0 - 0 - e') | Zneg _ => 0 end).
  assert (Hm' : 0 <= m' <= Zpos p * 2 ^ (- e')).
  { subst m'. destruct (0 - 0 - e') as [|s|s] eqn:Hs.
    - replace (- e') with 0 by lia. simpl. lia.
    - rewrite Z.shiftl_mul_pow2 by lia. replace (- e') with (Zpos s) by lia.
      assert (0 < 2 ^ Zpos s) by (apply Z.pow_pos_nonneg; lia). nia.
    - lia. }
  pose proof (Z.div_eucl_eq m' (Zpos q) ltac:(lia)) as Heq.
  pose proof (Z.mod_pos_bound m' (Zpos q) ltac:(lia)) as Hmod.
  unfold Z.modulo in Hmod.
  destruct (Z.div_eucl m' (Zpos q)) as [qt r].
  assert (Hq : 0 <= qt <= m') by nia.
  split; [lia|]. split; [|lia].
  assert (Zdigits2 qt <= k - e'); [|lia].
  apply Zdigits2_le; [lia|lia|].
  replace (k - e') with (k + - e') by lia.
  rewrite Z.pow_add_r by lia.
  assert (0 < 2 ^ (- e')) by (apply Z.pow_pos_nonneg; lia).
  nia.
Qed.

Lemma int_truediv_finite d k :
  Z.abs d < 2 ^ k -> 0 <= k <= 970 ->
  exists f, PyFloat.int_truediv d 100 = Ok f /\ finite_below (k + 1) f.
Proof.
  intros Hd Hk. unfold PyFloat.int_truediv. cbn [Z.eqb].
  destruct d as [|p|p]; cbn [PyFloat.exact_int SFdiv].
  - eexists; split; [reflexivity|exact I].
  - pose proof (SFdiv_core_finite p 100 k ltac:(lia) ltac:(lia)) as Hcore.
    unfold PyFloat.prec, PyFloat.emax.
    destruct (SFdiv_core_binary 53 1024 (Zpos p) 0 100 0) as [[mz ez] lz].
    destruct Hcore as (H1 & H2 & H3).
    pose proof (binary_round_aux_finite (xorb false false) mz ez lz k H1 H2 H3 ltac:(lia)) as Hs.
    destruct (binary_round_aux 53 1024 (xorb false false) mz ez lz); try contradiction;
      eexists; split; try reflexivity; assumption.
  - pose proof (SFdiv_core_finite p 100 k ltac:(lia) ltac:(lia)) as Hcore.
    unfold PyFloat.prec, PyFloat.emax.
    destruct (SFdiv_core_binary 53 1024 (Zpos p) 0 100 0) as [[mz ez] lz].
    destruct Hcore as (H1 & H2 & H3).
    pose proof (binary_round_aux_finite (xorb true false) mz ez lz k H1 H2 H3 ltac:(lia)) as Hs.
    destruct (binary_round_aux 53 1024 (xorb true false) mz ez lz); try contradiction;
      eexists; split; try reflexivity; assumption.
Qed.

(** Division of a float by 100. *)
Lemma of_int_100 : PyFloat.of_int 100 = Ok f100.
Proof. reflexivity. Qed.

Lemma SFdiv_core_by_100_finite m e k :
  Zpos (digits2_pos m) + e <= k -> -1069 <= k ->
  let '(mz, ez, _) := SFdiv_core_binary 53 1024 (Zpos m) e 7036874417766400 (-46) in
  0 <= mz /\ Zdigits2 mz + ez <= k - 5 /\ ez <= k - 5.
Proof.
  intros HD Hk. unfold SFdiv_core_binary.
  change (Zdigits2 7036874417766400) with 53.
  cbn [Zdigits2].
  set (d1 := Zpos (digits2_pos m)) in *.
  rewrite fexp64.
  set (e' := Z.min _ (e - -46)).
  assert (He' : e' <= e + 46) by (subst e'; lia).
  assert (He'' : e' <= Z.max (d1 + e - 7 - 53) (-1074)) by (subst e'; lia).
  set (m' := match e - -46 - e' with
             | Z0 => Zpos m
             | Zpos _ => Z.shiftl (Zpos m) (e - -46 - e')
             | Zneg _ => 0
             end).
  pose proof (digits2_pos_bounds m) as [_ Hm]. fold d1 in Hm.
  assert (Hd1 : 0 < d1) by (subst d1; lia).
  assert (Hm' : 0 <= m' < 2 ^ (d1 + (e + 46 - e'))).
  { subst m'. destruct (e - -46 - e') as [|s|s] eqn:Hs.
    - replace (e + 46 - e') with 0 by lia. rewrite Z.add_0_r. lia.
    - rewrite Z.shiftl_mul_pow2 by lia. replace (e + 46 - e') with (Zpos s) by lia.
      rewrite Z.pow_add_r by lia.
      assert (0 < 2 ^ Zpos s) by (apply Z.pow_pos_nonneg; lia). nia.
    - lia. }
  pose proof (Z.div_eucl_eq m' 7036874417766400 ltac:(lia)) as Heq.
  pose proof (Z.mod_pos_bound m' 7036874417766400 ltac:(lia)) as Hmod.
  unfold Z.modulo in Hmod.
  destruct (Z.div_eucl m' 7036874417766400) as [qt r].
  assert (Hq : 0 <= qt) by nia.
  split; [lia|]. split; [|lia].
  assert (Hle : 2 ^ 52 * qt <= m') by nia.
  destruct (Z.le_gt_cases 52 (d1 + (e + 46 - e'))) as [Hbig|Hsmall].
  - assert (Zdigits2 qt <= d1 + (e + 46 - e') - 52); [|lia].
    apply Zdigits2_le; [lia|lia|].
    assert (2 ^ (d1 + (e + 46 - e')) = 2 ^ 52 * 2 ^ (d1 + (e + 46 - e') - 52)).
    { rewrite <- Z.pow_add_r by lia. f_equal. lia. }
    nia.
  - assert (qt = 0).
    { assert (2 ^ (d1 + (e + 46 - e')) <= 2 ^ 52) by (apply Z.pow_le_mono_r; lia). nia. }
    subst qt. cbn [Zdigits2]. lia.
Qed.

Lemma div_int_100_finite x k :
  finite_below k x -> -1069 <= k <= 975 ->
  exists f, PyFloat.div_int x 100 = Ok f /\ finite_below (k - 4) f.
Proof.
  intros Hx Hk. unfold PyFloat.div_int. rewrite of_int_100. unfold f100.
  destruct x as [s|s| |s m e]; cbn [finite_below] in Hx; try contradiction.
  - eexists; split; [reflexivity|exact I].
  - cbn [SFdiv]. unfold PyFloat.prec, PyFloat.emax.
    pose proof (SFdiv_core_by_100_finite m e k Hx ltac:(lia)) as Hcore.
    destruct (SFdiv_core_binary 53 1024 (Zpos m) e 7036874417766400 (-46)) as [[mz ez] lz].
    destruct Hcore as (H1 & H2 & H3).
    pose proof (binary_round_aux_finite (xorb s false) mz ez lz (k - 5) H1 H2 H3 ltac:(lia))
      as Hs.
    replace (k - 5 + 1) with (k - 4) in Hs by lia.
    eexists; split; [reflexivity|exact Hs].
Qed.

(** The quotient by 100 of a moderate demand percent. *)
Lemma truediv_finite n :
  moderate n -> exists f, Number.truediv_int n 100 = Ok f /\ finite_below 961 f.
Proof.
  destruct n as [d|x]; cbn [moderate Number.truediv_int]; intros Hn.
  - exact (int_truediv_finite d 960 Hn ltac:(lia)).
  - destruct (div_int_100_finite x 960 Hn ltac:(lia)) as (f & Hf & Hbelow).
    exists f. split; [assumption|].
    apply (finite_below_weaken (960 - 4)); [lia|assumption].
Qed.

Lemma to_int_finite x k : finite_below k x -> exists z, PyFloat.to_int x = Ok z.
Proof.
  destruct x; cbn [finite_below PyFloat.to_int]; intros H; try contradiction; eexists; reflexivity.
Qed.

Lemma of_int_finite n k :
  Zdigits2 n <= k -> -1074 <= k <= 970 ->
  exists f, PyFloat.of_int n = Ok f /\ finite_below (k + 1) f.
Proof.
  intros Hn Hk. unfold PyFloat.of_int, PyFloat.prec, PyFloat.emax.
  pose proof (binary_normalize_finite n 0 k ltac:(lia) Hk) as Hs.
  destruct (binary_normalize 53 1024 n 0 false); try contradiction;
    eexists; split; try reflexivity; assumption.
Qed.

Lemma cool_pipeline_returns d :
  moderate d -> exists p, cool_pipeline d = Ok p /\ 20 <= p <= 50.
Proof.
  intros Hd. unfold cool_pipeline.
  destruct (truediv_finite d Hd) as (nd & -> & Hnd).
  unfold PyFloat.mul_int, PyFloat.int_sub.
  destruct (of_int_finite (COOLING_MIN_POSITION - COOLING_MAX_POSITION) 5
              ltac:(vm_compute; discriminate) ltac:(lia)) as (range & -> & Hrange).
  destruct (of_int_finite COOLING_MIN_POSITION 6
              ltac:(vm_compute; discriminate) ltac:(lia)) as (base & -> & Hbase).
  pose proof (SFmul_finite nd range 961 6 Hnd Hrange ltac:(lia)) as Hscaled.
  assert (Hbase' : finite_below 968 base) by (apply (finite_below_weaken (6 + 1)); [lia|assumption]).
  assert (Hk : -1074 <= 968 + 1 <= 970) by lia.
  pose proof (SFsub_finite base (PyFloat.mul nd range) 968 Hbase' Hscaled Hk) as Hpos.
  destruct (to_int_finite _ _ Hpos) as (z & Hz).
  unfold PyFloat.sub, PyFloat.mul, PyFloat.prec, PyFloat.emax in *. rewrite Hz.
  eexists; split; [reflexivity|].
  unfold COOLING_MAX_POSITION, COOLING_MIN_POSITION. lia.
Qed.

Lemma heat_pipeline_returns d :
  moderate d -> exists p, heat_pipeline d = Ok p /\ 60 <= p <= 100.
Proof.
  intros Hd. unfold heat_pipeline.
  destruct (truediv_finite d Hd) as (nd & -> & Hnd).
  unfold PyFloat.mul_int, PyFloat.int_add.
  destruct (of_int_finite (HEATING_MAX_POSITION - HEATING_MIN_POSITION) 6
              ltac:(vm_compute; discriminate) ltac:(lia)) as (range & -> & Hrange).
  destruct (of_int_finite HEATING_MIN_POSITION 6
              ltac:(vm_compute; discriminate) ltac:(lia)) as (base & -> & Hbase).
  pose proof (SFmul_finite nd range 961 7 Hnd Hrange ltac:(lia)) as Hscaled.
  assert (Hbase' : finite_below 969 base) by (apply (finite_below_weaken (6 + 1)); [lia|assumption]).
  assert (Hk : -1074 <= 969 + 1 <= 970) by lia.
  pose proof (SFadd_finite base (PyFloat.mul nd range) 969 Hbase' Hscaled Hk) as Hpos.
  destruct (to_int_finite _ _ Hpos) as (z & Hz).
  unfold PyFloat.add, PyFloat.mul, PyFloat.prec, PyFloat.emax in *. rewrite Hz.
  eexists; split; [reflexivity|].
  unfold HEATING_MAX_POSITION, HEATING_MIN_POSITION. lia.
Qed.


Section Facts.

Context {Strategy P : Type} {power : HvacPowerManager Strategy P}.

Implicit Types w : World Strategy P.

(** Case analysis on every [Result] scrutinised in the goal. *)
Ltac case_results :=
  repeat match goal with
         | |- context [match ?r with Ok _ => _ | Raise _ => _ end] => destruct r
         end.

Lemma mode_eqb_eq (a b : HVACMode.t) : HVACMode.eqb a b = true <-> a = b.
Proof. destruct a, b; simpl; split; congruence. Qed.

(** ** OFF *)

(** C4. In mode OFF the valve position is 55 whatever the demand percent
    and whatever the temperatures (present or [None]); nothing is read
    from the power manager, nothing is logged and the world is
    untouched. *)
Theorem off_position_fixed w :
  hvac_mode (self w) = HVACMode.OFF ->
  _calculate_valve_position w = (Ok 55, w).
Proof.
  intros Hmode.
  unfold _calculate_valve_position, bind, get_self.
  rewrite Hmode. reflexivity.
Qed.

(** ** Missing temperatures *)

(** The fallback on a missing temperature, for any mode other than OFF. *)
Lemma fallback_run w :
  hvac_mode (self w) <> HVACMode.OFF ->
  cur_temp (environment (self w)) = None \/
  getattr (environment (self w)) (target_env_attr (self w)) = None ->
  _calculate_valve_position w =
    (Ok 55,
     logged w [{| levelname := WARNING;
                  msg := "Temperature values not available, using default position";
                  args := [] |}]).
Proof.
  intros Hmode Htemp.
  unfold _calculate_valve_position, bind, get_self.
  destruct (HVACMode.eqb (hvac_mode (self w)) HVACMode.OFF) eqn:Hoff.
  { apply mode_eqb_eq in Hoff. contradiction. }
  destruct Htemp as [-> | ->].
  - reflexivity.
  - destruct (cur_temp (environment (self w))); reflexivity.
Qed.

(** C5. In mode HEAT or COOL, when the current temperature or the target
    temperature is [None], the position is the OFF position 55: the result
    is a normal return, a warning is logged, the power manager is neither
    refreshed nor read and no interpolation takes place. *)
Theorem missing_temperature_falls_back w :
  hvac_mode (self w) = HVACMode.HEAT \/ hvac_mode (self w) = HVACMode.COOL ->
  cur_temp (environment (self w)) = None \/
  getattr (environment (self w)) (target_env_attr (self w)) = None ->
  _calculate_valve_position w =
    (Ok 55,
     logged w [{| levelname := WARNING;
                  msg := "Temperature values not available, using default position";
                  args := [] |}]) /\
  hvac_power (self (snd (_calculate_valve_position w))) = hvac_power (self w).
Proof.
  intros Hmode Htemp.
  assert (Hon : hvac_mode (self w) <> HVACMode.OFF)
    by (destruct Hmode as [-> | ->]; discriminate).
  rewrite (fallback_run w Hon Htemp). split; reflexivity.
Qed.

(** ** The interpolation as run by the method *)

Lemma hvac_action_run w :
  exists action,
    hvac_action w =
      (Ok action,
       logged w [{| levelname := DEBUG;
                    msg := "CustomPositionValveWithFanDevice hvac_action. is_active: %s, hvac_mode: %s";
                    args := [ArgBool (is_active (self w)); ArgMode (hvac_mode (self w))] |}]).
Proof.
  unfold hvac_action, bind, get_self, _LOGGER, ret, logged, extended; simpl.
  destruct (HVACMode.eqb (hvac_mode (self w)) HVACMode.OFF); [eexists; reflexivity|].
  destruct (is_active (self w)); [|eexists; reflexivity].
  destruct (HVACMode.eqb (hvac_mode (self w)) HVACMode.HEAT); [eexists; reflexivity|].
  destruct (HVACMode.eqb (hvac_mode (self w)) HVACMode.COOL); eexists; reflexivity.
Qed.

(** The refresh changes the power manager and the log, nothing else. *)
Lemma refreshed_keeps w :
  hvac_mode (self (refreshed w)) = hvac_mode (self w) /\
  valve_entity_id (self (refreshed w)) = valve_entity_id (self w) /\
  fan_entity_id (self (refreshed w)) = fan_entity_id (self w) /\
  calls (refreshed w) = calls w /\
  transport (refreshed w) = transport w.
Proof.
  unfold refreshed, bind.
  destruct (hvac_action_run w) as [action ->].
  repeat split.
Qed.

(** The refreshed demand does not depend on what was logged or called. *)
Lemma demand_extended w cs rs : demand (extended w cs rs) = demand w.
Proof.
  unfold demand, refreshed, bind.
  destruct (hvac_action_run w) as [action Hw].
  destruct (hvac_action_run (extended w cs rs)) as [action' Hw'].
  rewrite Hw, Hw'. cbn [snd fst].
  assert (action' = action); [|subst; reflexivity].
  revert Hw Hw'. unfold hvac_action, bind, get_self, _LOGGER, ret, extended.
  cbn [self hvac_mode is_active].
  repeat match goal with
         | |- context [if ?b then _ else _] => destruct b
         end; congruence.
Qed.

(** With both temperatures present the method refreshes the demand and
    then runs the pipeline of its band. *)
Lemma interpolation_run w :
  temperatures_available w ->
  (hvac_mode (self w) = HVACMode.COOL ->
   _calculate_valve_position w = (cool_pipeline (demand w), refreshed w)) /\
  (hvac_mode (self w) = HVACMode.HEAT ->
   _calculate_valve_position w = (heat_pipeline (demand w), refreshed w)).
Proof.
  intros [Hcur Htarget].
  unfold demand, refreshed, _calculate_valve_position.
  destruct (hvac_action_run w) as [action Hact].
  unfold bind, get_self.
  destruct (cur_temp (environment (self w))) as [current|]; [|contradiction].
  destruct (getattr (environment (self w)) (target_env_attr (self w))) as [target|];
    [|contradiction].
  split; intros Hmode; rewrite Hmode; cbn [HVACMode.eqb]; rewrite !Hact;
    unfold hvac_power_update, logged, extended, lift, ret;
    cbn [fst snd self hvac_mode hvac_power app calls records transport];
    rewrite Hmode; cbn [HVACMode.eqb];
    unfold cool_pipeline, heat_pipeline;
    case_results; reflexivity.
Qed.

(** ** The two bands on the percent range *)

Lemma forall_from_spec (f : Z -> bool) (n : nat) (lo : Z) :
  forall_from f lo n = true ->
  forall d, lo <= d < lo + Z.of_nat n -> f d = true.
Proof.
  revert lo. induction n as [|n IH]; intros lo Hall d Hd.
  - simpl in Hd. lia.
  - simpl in Hall. apply andb_true_iff in Hall as [Hlo Hrest].
    destruct (Z.eq_dec d lo) as [->|Hne]; [assumption|].
    apply (IH (lo + 1) Hrest). lia.
Qed.

Lemma Result_eqb_eq (r : Result Z) (z : Z) : Result_eqb r z = true -> r = Ok z.
Proof.
  destruct r as [p|e]; simpl; [|discriminate].
  intros H. apply Z.eqb_eq in H. congruence.
Qed.

(** On 0..100 the binary64 arithmetic of the COOL band agrees with the
    exact interpolation: all 101 percents are evaluated. *)
Lemma cool_pipeline_exact d :
  0 <= d <= 100 -> cool_pipeline (Int d) = Ok (Spec.cool_position d).
Proof.
  intros Hd. apply Result_eqb_eq.
  apply (forall_from_spec
           (fun k => Result_eqb (cool_pipeline (Int k)) (Spec.cool_position k)) 101 0).
  - vm_compute. reflexivity.
  - lia.
Qed.

Lemma heat_pipeline_exact d :
  0 <= d <= 100 -> heat_pipeline (Int d) = Ok (Spec.heat_position d).
Proof.
  intros Hd. apply Result_eqb_eq.
  apply (forall_from_spec
           (fun k => Result_eqb (heat_pipeline (Int k)) (Spec.heat_position k)) 101 0).
  - vm_compute. reflexivity.
  - lia.
Qed.





(** Whatever the demand, a position that comes out of a pipeline has gone
    through the clamp of its band. *)
Lemma cool_pipeline_clamped d p : cool_pipeline d = Ok p -> 20 <= p <= 50.
Proof.
  unfold cool_pipeline.
  repeat match goal with
         | |- context [match ?r with Ok _ => _ | Raise _ => _ end] =>
             destruct r; try discriminate
         end.
  unfold COOLING_MAX_POSITION, COOLING_MIN_POSITION.
  intros H. injection H as <-. lia.
Qed.

Lemma heat_pipeline_clamped d p : heat_pipeline d = Ok p -> 60 <= p <= 100.
Proof.
  unfold heat_pipeline.
  repeat match goal with
         | |- context [match ?r with Ok _ => _ | Raise _ => _ end] =>
             destruct r; try discriminate
         end.
  unfold HEATING_MAX_POSITION, HEATING_MIN_POSITION.
  intros H. injection H as <-. lia.
Qed.

(** ** The COOL and HEAT bands *)

(** The two ends of the percent range, as an [int] or as a [float]. *)
Lemma pipelines_at_zero d :
  Number.is_zero d = true -> cool_pipeline d = Ok 50 /\ heat_pipeline d = Ok 60.
Proof.
  destruct d as [z|[s|s| |s m e]]; cbn [Number.is_zero]; try discriminate.
  - intros Hz. apply Z.eqb_eq in Hz. subst z. split; reflexivity.
  - intros _. destruct s; split; reflexivity.
Qed.




(** ** The two setters, run *)

Lemma set_valve_run position w :
  _async_set_valve_position position w =
    match valve_entity_id (self w) with
    | None => (Ok tt, extended w [] [valve_info_record position None])
    | Some valve =>
        let c := valve_command valve position in
        match transport w (length (calls w)) c with
        | None =>
            (Ok tt, extended w [c] [valve_success_record position;
                                    valve_info_record position (Some valve)])
        | Some e =>
            if is_Exception e then
              (Ok tt, extended w [c] [valve_error_record position (Some valve) e;
                                      valve_info_record position (Some valve)])
            else (Raise e, extended w [c] [valve_info_record position (Some valve)])
        end
    end.
Proof.
  unfold _async_set_valve_position, bind, get_self, _LOGGER, try_except_Exception,
    async_call, ret, extended, valve_command.
  cbn [self calls transport records app].
  destruct (valve_entity_id (self w)) as [valve|]; [|reflexivity].
  cbn [self calls transport records app].
  destruct (transport w (length (calls w)) _) as [e|]; [|reflexivity].
  destruct (is_Exception e); reflexivity.
Qed.

Lemma set_fan_run speed_percent w :
  _async_set_fan_speed speed_percent w =
    match fan_entity_id (self w) with
    | None => (Ok tt, extended w [] [fan_info_record speed_percent None])
    | Some fan =>
        let c := fan_command fan speed_percent in
        match transport w (length (calls w)) c with
        | None =>
            (Ok tt, extended w [c] [fan_success_record speed_percent;
                                    fan_info_record speed_percent (Some fan)])
        | Some e =>
            if is_Exception e then
              (Ok tt, extended w [c] [fan_error_record speed_percent (Some fan) e;
                                      fan_info_record speed_percent (Some fan)])
            else (Raise e, extended w [c] [fan_info_record speed_percent (Some fan)])
        end
    end.
Proof.
  unfold _async_set_fan_speed, bind, get_self, _LOGGER, try_except_Exception,
    async_call, ret, extended, fan_command, fan_off_command, fan_percentage_command.
  cbn [self calls transport records app].
  destruct (fan_entity_id (self w)) as [fan|]; [|reflexivity].
  destruct (Number.is_zero speed_percent); cbn [self calls transport records app];
    (destruct (transport w (length (calls w)) _) as [e|]; [|reflexivity]);
    destruct (is_Exception e); reflexivity.
Qed.

(** ** Fan speed *)

Lemma fan_speed_run w :
  _calculate_fan_speed w =
    (Ok (if HVACMode.eqb (hvac_mode (self w)) HVACMode.OFF then Int 0 else held_demand w), w).
Proof.
  unfold _calculate_fan_speed, bind, get_self, ret, held_demand.
  destruct (HVACMode.eqb (hvac_mode (self w)) HVACMode.OFF); reflexivity.
Qed.

(** C3, as amended. The fan speed is the int 0 in mode OFF and, in every
    other mode (HEAT and COOL among them), the demand percent held by the
    power manager handed on as it is: the same number of the same type,
    neither converted nor clamped.  So the speed is an integer in 0..100
    whenever that percent is one, and in a mode other than OFF only then:
    a float percent gives a float speed and a percent outside 0..100 a
    speed outside 0..100.  The world is left as it was. *)
Theorem fan_speed_follows_demand w :
  (hvac_mode (self w) = HVACMode.OFF -> _calculate_fan_speed w = (Ok (Int 0), w)) /\
  (hvac_mode (self w) <> HVACMode.OFF ->
   _calculate_fan_speed w = (Ok (held_demand w), w)) /\
  (exists speed,
     _calculate_fan_speed w = (Ok speed, w) /\
     (Number.is_int (held_demand w) = true -> Number.is_int speed = true) /\
     (Number.between 0 100 (held_demand w) = true -> Number.between 0 100 speed = true) /\
     (hvac_mode (self w) <> HVACMode.OFF ->
      Number.is_int speed = Number.is_int (held_demand w) /\
      Number.between 0 100 speed = Number.between 0 100 (held_demand w))).
Proof.
  rewrite fan_speed_run.
  split; [|split].
  - intros ->. reflexivity.
  - intros Hmode.
    destruct (HVACMode.eqb (hvac_mode (self w)) HVACMode.OFF) eqn:Hoff; [|reflexivity].
    apply mode_eqb_eq in Hoff. contradiction.
  - eexists. split; [reflexivity|].
    destruct (HVACMode.eqb (hvac_mode (self w)) HVACMode.OFF) eqn:Hoff.
    + apply mode_eqb_eq in Hoff.
      split; [reflexivity|]. split; [reflexivity|]. intros Hmode. contradiction.
    + repeat split; trivial.
Qed.

(** ** Transport failures *)


(** ** Turning on *)

(** C7. When the valve identity or the fan identity is [None],
    [async_turn_on] logs its info record and a warning and returns
    normally: no service call is issued for either actuator, whatever the
    other identity, and the device and the power manager are untouched. *)
Theorem turn_on_without_identity w :
  valve_entity_id (self w) = None \/ fan_entity_id (self w) = None ->
  async_turn_on w =
    (Ok tt,
     logged w
       [{| levelname := WARNING; msg := "Valve or fan entity ID is None"; args := [] |};
        {| levelname := INFO;
           msg := "%s. Setting valve position and fan speed for entities %s, %s";
           args := [ArgStr class_name; ArgId (valve_entity_id (self w));
                    ArgId (fan_entity_id (self w))] |}]).
Proof.
  intros Hnone.
  unfold async_turn_on, bind, get_self, _LOGGER, logged, extended.
  cbn [self calls transport records app].
  destruct Hnone as [Hv | Hf].
  - rewrite Hv. reflexivity.
  - rewrite Hf. destruct (valve_entity_id (self w)); reflexivity.
Qed.


(** ** Fan commands *)

(** [async_turn_on] at a refreshed demand of 0, both identities present. *)
Lemma turn_on_at_zero_demand w valve fan :
  valve_entity_id (self w) = Some valve ->
  fan_entity_id (self w) = Some fan ->
  hvac_mode (self w) = HVACMode.HEAT \/ hvac_mode (self w) = HVACMode.COOL ->
  temperatures_available w -> next_call_contained w ->
  Number.is_zero (demand w) = true ->
  calls (snd (async_turn_on w)) =
    fan_off_command fan
    :: valve_command valve
         (match hvac_mode (self w) with HVACMode.HEAT => 60 | _ => 50 end)
    :: calls w.
Proof.
  intros Hvalve Hfan Hmode Htemp Hcontained Hzero.
  unfold async_turn_on, bind, get_self, _LOGGER at 1.
  cbn [self calls transport records].
  rewrite Hvalve, Hfan. cbn [is_None orb].
  set (w0 := {| self := self w; calls := calls w; transport := transport w;
                records := _ :: records w |}).
  assert (Hdemand : demand w0 = demand w) by apply (demand_extended w [] [_]).
  destruct (pipelines_at_zero _ Hzero) as [Hcool0 Hheat0].
  destruct (interpolation_run w0 Htemp) as [Hcool Hheat].
  destruct (refreshed_keeps w0) as (Hm & Hv & Hf & Hc & Ht).
  cbn [self calls transport w0] in Hm, Hv, Hf, Hc, Ht.
  assert (Hrun : exists position,
             _calculate_valve_position w0 = (Ok position, refreshed w0) /\
             position = match hvac_mode (self w) with HVACMode.HEAT => 60 | _ => 50 end).
  { destruct Hmode as [Hmode | Hmode].
    - rewrite (Hheat Hmode), Hdemand, Hheat0, Hmode. eexists; split; reflexivity.
    - rewrite (Hcool Hmode), Hdemand, Hcool0, Hmode. eexists; split; reflexivity. }
  destruct Hrun as (position & -> & <-).
  rewrite set_valve_run, Hv, Hvalve, Hc, Ht. cbn zeta.
  assert (Hoff : HVACMode.eqb (hvac_mode (self w)) HVACMode.OFF = false)
    by (destruct Hmode as [-> | ->]; reflexivity).
  destruct (transport w (length (calls w)) (valve_command valve position)) as [e|] eqn:Hout;
    [rewrite (Hcontained _ _ Hout)|];
    rewrite fan_speed_run; unfold extended, held_demand; cbn [self calls transport records];
    rewrite Hm, Hoff; fold (demand w0); rewrite Hdemand;
    rewrite set_fan_run; cbn [self calls transport records app];
    rewrite Hf, Hfan, Hc, Ht; cbn zeta;
    unfold fan_command; rewrite Hzero;
    repeat match goal with
           | |- context [match ?t with Some _ => _ | None => _ end] => destruct t
           | |- context [if is_Exception ?e then _ else _] => destruct (is_Exception e)
           end; reflexivity.
Qed.

(** C9. With the fan identity present, [_async_set_fan_speed] issues
    exactly one call to the fan: "turn_off" when the speed is 0 (a call
    different from a "set_percentage" of 0) and "set_percentage" with the
    speed otherwise, whatever the transport answers.  In particular, in
    mode HEAT or COOL with a demand percent of 0 the computed fan speed is
    0 and the call is "turn_off": so it is in [async_turn_on], where the
    valve goes to 60 (HEAT) or 50 (COOL) and the fan is powered off.  The
    speed is any number, and 0 is the int 0 or a float zero, as [== 0]
    has it. *)
Theorem fan_zero_is_power_off w fan speed_percent :
  fan_entity_id (self w) = Some fan ->
  calls (snd (_async_set_fan_speed speed_percent w)) =
    fan_command fan speed_percent :: calls w /\
  (Number.is_zero speed_percent = true ->
   fan_command fan speed_percent = fan_off_command fan) /\
  (Number.is_zero speed_percent = false ->
   fan_command fan speed_percent = fan_percentage_command fan speed_percent) /\
  (Number.is_zero speed_percent = true <->
   speed_percent = Int 0 \/ exists s, speed_percent = Float (S754_zero s)) /\
  fan_off_command fan <> fan_percentage_command fan (Int 0) /\
  (hvac_mode (self w) = HVACMode.HEAT \/ hvac_mode (self w) = HVACMode.COOL ->
   Number.is_zero (held_demand w) = true ->
   calls (snd ((speed <- _calculate_fan_speed ;; _async_set_fan_speed speed) w)) =
     fan_off_command fan :: calls w) /\
  (forall valve,
     valve_entity_id (self w) = Some valve ->
     hvac_mode (self w) = HVACMode.HEAT \/ hvac_mode (self w) = HVACMode.COOL ->
     temperatures_available w -> next_call_contained w ->
     Number.is_zero (demand w) = true ->
     calls (snd (async_turn_on w)) =
       fan_off_command fan
       :: valve_command valve
            (match hvac_mode (self w) with HVACMode.HEAT => 60 | _ => 50 end)
       :: calls w).
Proof.
  intros Hfan.
  assert (Hcalls : forall speed,
             calls (snd (_async_set_fan_speed speed w)) = fan_command fan speed :: calls w).
  { intros speed. rewrite set_fan_run, Hfan. cbn zeta.
    destruct (transport w (length (calls w)) (fan_command fan speed)) as [e|];
      [destruct (is_Exception e)|]; reflexivity. }
  split; [apply Hcalls|].
  split; [intros Hz; unfold fan_command; rewrite Hz; reflexivity|].
  split; [intros Hz; unfold fan_command; rewrite Hz; reflexivity|].
  split.
  { destruct speed_percent as [z|[s|s| |s m e]]; cbn [Number.is_zero]; split;
      try discriminate; try (intros [H | [s' H]]; discriminate).
    - intros Hz. apply Z.eqb_eq in Hz. subst z. left. reflexivity.
    - intros [H | [s' H]]; [injection H as ->; reflexivity|discriminate].
    - intros _. right. exists s. reflexivity.
    - intros _. reflexivity. }
  split; [discriminate|].
  split.
  - intros Hmode Hzero.
    unfold bind. rewrite fan_speed_run.
    replace (HVACMode.eqb (hvac_mode (self w)) HVACMode.OFF) with false
      by (destruct Hmode as [-> | ->]; reflexivity).
    rewrite Hcalls. unfold fan_command. rewrite Hzero. reflexivity.
  - intros valve Hvalve Hmode Htemp Hcontained Hzero.
    apply turn_on_at_zero_demand; assumption.
Qed.

(** ** Turning off *)







End Facts.

(** * The statements at concrete zones *)

Lemma zone_temperatures_available mode d : temperatures_available (zone_at mode d).
Proof. split; discriminate. Defined.

Lemma reliable_contained (w : World unit Scripted) :
  transport w = reliable -> next_call_contained w.
Proof. intros Ht c e H. rewrite Ht in H. discriminate. Defined.





Lemma off_position_fixed_witness :
  hvac_mode (self (blind_zone HVACMode.OFF (Some "valve.zone") None reliable)) = HVACMode.OFF /\
  _calculate_valve_position (blind_zone HVACMode.OFF (Some "valve.zone") None reliable)
    = (Ok 55, blind_zone HVACMode.OFF (Some "valve.zone") None reliable) /\
  _calculate_valve_position (zone_holding HVACMode.OFF (Int (-400)) reliable)
    = (Ok 55, zone_holding HVACMode.OFF (Int (-400)) reliable).
Proof.
  split; [reflexivity|].
  split; apply off_position_fixed; reflexivity.
Defined.

Lemma missing_temperature_falls_back_witness :
  cur_temp (environment (self (blind_zone HVACMode.COOL (Some "valve.zone")
                                 (Some "fan.zone") reliable))) = None /\
  fst (_calculate_valve_position
         (blind_zone HVACMode.COOL (Some "valve.zone") (Some "fan.zone") reliable)) = Ok 55 /\
  hvac_power (self (snd (_calculate_valve_position
                           (blind_zone HVACMode.COOL (Some "valve.zone")
                              (Some "fan.zone") reliable))))
    = {| percent := Int 70; upcoming := [Int 10] |}.
Proof.
  split; [reflexivity|].
  destruct (missing_temperature_falls_back
              (blind_zone HVACMode.COOL (Some "valve.zone") (Some "fan.zone") reliable)
              (or_intror eq_refl) (or_introl eq_refl)) as [Hrun Hpower].
  split; [rewrite Hrun; reflexivity|exact Hpower].
Defined.

Lemma fan_speed_follows_demand_witness :
  _calculate_fan_speed (zone_holding HVACMode.OFF (Int 80) reliable)
    = (Ok (Int 0), zone_holding HVACMode.OFF (Int 80) reliable) /\
  _calculate_fan_speed (zone_holding HVACMode.HEAT (Int 80) reliable)
    = (Ok (Int 80), zone_holding HVACMode.HEAT (Int 80) reliable) /\
  _calculate_fan_speed (zone_holding HVACMode.COOL (Float f72_5) reliable)
    = (Ok (Float f72_5), zone_holding HVACMode.COOL (Float f72_5) reliable) /\
  (exists speed,
     _calculate_fan_speed (zone_holding HVACMode.COOL (Int 100) reliable)
       = (Ok speed, zone_holding HVACMode.COOL (Int 100) reliable) /\
     Number.is_int speed = true /\ Number.between 0 100 speed = true).
Proof.
  split; [|split; [|split]].
  - destruct (fan_speed_follows_demand (zone_holding HVACMode.OFF (Int 80) reliable))
      as (A & _). apply A. reflexivity.
  - destruct (fan_speed_follows_demand (zone_holding HVACMode.HEAT (Int 80) reliable))
      as (_ & A & _). apply A. discriminate.
  - destruct (fan_speed_follows_demand (zone_holding HVACMode.COOL (Float f72_5) reliable))
      as (_ & A & _). apply A. discriminate.
  - destruct (fan_speed_follows_demand (zone_holding HVACMode.COOL (Int 100) reliable))
      as (_ & _ & speed & Hrun & Hint & Hrange & _).
    exists speed. split; [exact Hrun|].
    split; [apply Hint|apply Hrange]; reflexivity.
Defined.

(** C3, counterexamples to "an integer in 0..100 for every demand": in
    mode HEAT with a demand percent of 150 the fan speed is 150, outside
    0..100; and with the float demand 72.5, inside 0..100, the fan speed
    is the float 72.5, not an integer. *)
Lemma fan_speed_out_of_range :
  fst (_calculate_fan_speed (zone_holding HVACMode.HEAT (Int 150) reliable)) = Ok (Int 150) /\
  Number.between 0 100 (Int 150) = false /\
  fst (_calculate_fan_speed (zone_holding HVACMode.HEAT (Float f72_5) reliable))
    = Ok (Float f72_5) /\
  Number.between 0 100 (Float f72_5) = true /\
  Number.is_int (Float f72_5) = false.
Proof. repeat split. Qed.




Lemma turn_on_without_identity_witness :
  fan_entity_id (self (blind_zone HVACMode.HEAT (Some "valve.zone") None reliable)) = None /\
  fst (async_turn_on (blind_zone HVACMode.HEAT (Some "valve.zone") None reliable)) = Ok tt /\
  calls (snd (async_turn_on (blind_zone HVACMode.HEAT (Some "valve.zone") None reliable))) = [] /\
  fst (async_turn_on (zone_holding HVACMode.HEAT (Int 80) reliable)) = Ok tt /\
  calls (snd (async_turn_on (zone_holding HVACMode.HEAT (Int 80) reliable)))
    = [fan_percentage_command "fan.zone" (Int 80); valve_command "valve.zone" 92].
Proof.
  split; [reflexivity|].
  pose proof (turn_on_without_identity
                (blind_zone HVACMode.HEAT (Some "valve.zone") None reliable)
                (or_intror eq_refl)) as Hrun.
  split; [rewrite Hrun; reflexivity|].
  split; [rewrite Hrun; reflexivity|].
  split; reflexivity.
Defined.



Lemma fan_zero_is_power_off_witness :
  fan_entity_id (self (zone_holding HVACMode.HEAT (Int 0) reliable)) = Some "fan.zone" /\
  calls (snd (_async_set_fan_speed (Int 0) (zone_holding HVACMode.HEAT (Int 0) reliable)))
    = [fan_off_command "fan.zone"] /\
  calls (snd (_async_set_fan_speed (Float (S754_zero true))
                (zone_holding HVACMode.HEAT (Int 0) reliable)))
    = [fan_off_command "fan.zone"] /\
  calls (snd (_async_set_fan_speed (Int 35) (zone_holding HVACMode.HEAT (Int 0) reliable)))
    = [fan_percentage_command "fan.zone" (Int 35)] /\
  calls (snd (_async_set_fan_speed (Float f72_5) (zone_holding HVACMode.HEAT (Int 0) reliable)))
    = [fan_percentage_command "fan.zone" (Float f72_5)] /\
  calls (snd ((speed <- _calculate_fan_speed ;; _async_set_fan_speed speed)
                (zone_holding HVACMode.HEAT (Int 0) reliable)))
    = [fan_off_command "fan.zone"] /\
  calls (snd (async_turn_on (zone_at HVACMode.HEAT (Int 0))))
    = [fan_off_command "fan.zone"; valve_command "valve.zone" 60].
Proof.
  split; [reflexivity|].
  pose proof (fun speed =>
                fan_zero_is_power_off (zone_holding HVACMode.HEAT (Int 0) reliable)
                  "fan.zone" speed eq_refl) as H.
  split; [|split; [|split; [|split; [|split]]]].
  - destruct (H (Int 0)) as (A & B & _). rewrite A. rewrite (B eq_refl). reflexivity.
  - destruct (H (Float (S754_zero true))) as (A & B & _).
    rewrite A. rewrite (B eq_refl). reflexivity.
  - destruct (H (Int 35)) as (A & _ & B & _). rewrite A. rewrite (B eq_refl). reflexivity.
  - destruct (H (Float f72_5)) as (A & _ & B & _). rewrite A. rewrite (B eq_refl). reflexivity.
  - destruct (H (Int 0)) as (_ & _ & _ & _ & _ & A & _). apply A; [left|]; reflexivity.
  - destruct (fan_zero_is_power_off (zone_at HVACMode.HEAT (Int 0)) "fan.zone" (Int 0) eq_refl)
      as (_ & _ & _ & _ & _ & _ & A).
    apply (A "valve.zone" eq_refl (or_introl eq_refl)
             (zone_temperatures_available _ _)
             (reliable_contained (zone_at HVACMode.HEAT (Int 0)) eq_refl) eq_refl).
Defined.



(** Beyond the range of a float the quotient [demand / 100] of an [int]
    itself raises, and on a float infinity or NaN the conversion
    [int(position)] does: the bound on the demand in the two band theorems
    cannot be dropped altogether. *)
Remark quotient_overflow :
  cool_pipeline (Int (100 * 2 ^ 1024)) = Raise OverflowError /\
  heat_pipeline (Int (100 * 2 ^ 1024)) = Raise OverflowError /\
  cool_pipeline (Float (S754_infinity false)) = Raise OverflowError /\
  heat_pipeline (Float S754_nan) = Raise ValueError.
Proof. repeat split; vm_compute; reflexivity. Qed.

(** * Further facts about the device *)

Section MoreFacts.

Context {Strategy P : Type} {power : HvacPowerManager Strategy P}.

Implicit Types w : World Strategy P.

Ltac case_results :=
  repeat match goal with
         | |- context [match ?r with Ok _ => _ | Raise _ => _ end] => destruct r
         end.

(** ** The reported action *)

(** X1. [hvac_action] logs one debug record and changes nothing else; the
    action is OFF exactly in mode OFF, HEATING exactly when the device is
    active in mode HEAT, COOLING exactly when it is active in mode COOL,
    and IDLE in every other case -- an inactive device, or an active one
    in a mode such as AUTO. *)
Theorem hvac_action_cases w :
  exists action,
    hvac_action w =
      (Ok action,
       logged w [hvac_action_record (is_active (self w)) (hvac_mode (self w))]) /\
    (action = HVACAction.OFF <-> hvac_mode (self w) = HVACMode.OFF) /\
    (action = HVACAction.HEATING <->
     is_active (self w) = true /\ hvac_mode (self w) = HVACMode.HEAT) /\
    (action = HVACAction.COOLING <->
     is_active (self w) = true /\ hvac_mode (self w) = HVACMode.COOL) /\
    (action = HVACAction.IDLE <->
     hvac_mode (self w) <> HVACMode.OFF /\
     (is_active (self w) = false \/
      (hvac_mode (self w) <> HVACMode.HEAT /\ hvac_mode (self w) <> HVACMode.COOL))).
Proof.
  unfold hvac_action, bind, get_self, _LOGGER, ret, logged, extended, hvac_action_record.
  cbn [self calls transport records app].
  destruct (hvac_mode (self w)), (is_active (self w)); cbn [HVACMode.eqb];
    eexists; (split; [reflexivity|]);
    intuition (discriminate || congruence).
Qed.

(** ** The position computation, in general *)

(** The method with both temperatures present, in any mode other than
    OFF. *)
Lemma calculate_run_available w :
  hvac_mode (self w) <> HVACMode.OFF ->
  temperatures_available w ->
  _calculate_valve_position w =
    (band_pipeline (hvac_mode (self w)) (demand w), refreshed w).
Proof.
  intros Hmode Htemp.
  destruct (interpolation_run w Htemp) as [Hcool Hheat].
  destruct (hvac_mode (self w)) eqn:Hm; try contradiction;
    try (apply Hcool; reflexivity); try (apply Hheat; reflexivity);
    clear Hcool Hheat;
    destruct Htemp as [Hcur Htarget];
    unfold demand, refreshed, _calculate_valve_position;
    destruct (hvac_action_run w) as [action Hact];
    unfold bind, get_self;
    (destruct (cur_temp (environment (self w))) as [current|]; [|contradiction]);
    (destruct (getattr (environment (self w)) (target_env_attr (self w))) as [target|];
     [|contradiction]);
    rewrite Hm; cbn [HVACMode.eqb]; rewrite !Hact;
    unfold hvac_power_update, logged, extended, lift, ret;
    cbn [fst snd self hvac_mode hvac_power app calls records transport];
    rewrite Hm; cbn [HVACMode.eqb band_pipeline];
    case_results; reflexivity.
Qed.

(** The method never touches anything but the power manager and the
    log. *)
Lemma calculate_keeps w :
  hvac_mode (self (snd (_calculate_valve_position w))) = hvac_mode (self w) /\
  valve_entity_id (self (snd (_calculate_valve_position w))) = valve_entity_id (self w) /\
  fan_entity_id (self (snd (_calculate_valve_position w))) = fan_entity_id (self w) /\
  calls (snd (_calculate_valve_position w)) = calls w /\
  transport (snd (_calculate_valve_position w)) = transport w.
Proof.
  destruct (HVACMode.eqb (hvac_mode (self w)) HVACMode.OFF) eqn:Hoff.
  - unfold _calculate_valve_position, bind, get_self. rewrite Hoff. repeat split.
  - assert (Hmode : hvac_mode (self w) <> HVACMode.OFF).
    { intros H. rewrite H in Hoff. discriminate. }
    destruct (cur_temp (environment (self w))) as [current|] eqn:Hcur.
    + destruct (getattr (environment (self w)) (target_env_attr (self w)))
        as [target|] eqn:Htarget.
      * rewrite calculate_run_available;
          [apply refreshed_keeps|assumption|split; congruence].
      * rewrite fallback_run by auto. repeat split.
    + rewrite fallback_run by auto. repeat split.
Qed.

Lemma band_pipeline_range mode d p :
  band_pipeline mode d = Ok p -> 20 <= p <= 100.
Proof.
  destruct mode; cbn [band_pipeline];
    try (intros H; apply cool_pipeline_clamped in H; lia);
    try (intros H; apply heat_pipeline_clamped in H; lia);
    destruct (Number.truediv_int d 100); try discriminate;
    intros H; injection H as <-; unfold OFF_POSITION; lia.
Qed.

(** The quotient by 100 of a float never raises, and that of an [int]
    does not below the float range. *)
Lemma truediv_returns d :
  (forall z, d = Int z -> Z.abs z < 2 ^ 960) ->
  exists f, Number.truediv_int d 100 = Ok f.
Proof.
  destruct d as [z|x]; intros Hd; cbn [Number.truediv_int].
  - destruct (int_truediv_finite z 960 (Hd z eq_refl) ltac:(lia)) as (f & -> & _).
    eexists; reflexivity.
  - unfold PyFloat.div_int. rewrite of_int_100. unfold f100. eexists; reflexivity.
Qed.

Lemma band_pipeline_returns mode d : moderate d -> exists p, band_pipeline mode d = Ok p.
Proof.
  intros Hd. destruct mode; cbn [band_pipeline];
    try (destruct (cool_pipeline_returns d Hd) as (p & -> & _); eexists; reflexivity);
    try (destruct (heat_pipeline_returns d Hd) as (p & -> & _); eexists; reflexivity);
    destruct (truediv_finite d Hd) as (f & -> & _); eexists; reflexivity.
Qed.

(** ** Which target is read *)

(** X2. In range mode the target temperature is read from
    [_target_temp_low], whatever [_target_env_attr] names: when the low
    target is [None] the valve position falls back to 55 with a warning
    and without a refresh, even if the single target is set.  Outside
    range mode the attribute named by [_target_env_attr] decides. *)
Theorem range_mode_reads_low_target w :
  hvac_mode (self w) <> HVACMode.OFF ->
  (is_range_mode (features (self w)) = true ->
   getattr (environment (self w)) "_target_temp_low" = None ->
   _calculate_valve_position w =
     (Ok 55,
      logged w [{| levelname := WARNING;
                   msg := "Temperature values not available, using default position";
                   args := [] |}])) /\
  (is_range_mode (features (self w)) = false ->
   getattr (environment (self w)) (_target_env_attr (self w)) = None ->
   _calculate_valve_position w =
     (Ok 55,
      logged w [{| levelname := WARNING;
                   msg := "Temperature values not available, using default position";
                   args := [] |}])) /\
  (is_range_mode (features (self w)) = true ->
   cur_temp (environment (self w)) <> None ->
   getattr (environment (self w)) "_target_temp_low" <> None ->
   _calculate_valve_position w =
     (band_pipeline (hvac_mode (self w)) (demand w), refreshed w)).
Proof.
  intros Hmode. repeat split.
  - intros Hrange Hlow. apply fallback_run; [assumption|].
    right. unfold target_env_attr. rewrite Hrange. assumption.
  - intros Hrange Hnone. apply fallback_run; [assumption|].
    right. unfold target_env_attr. rewrite Hrange. assumption.
  - intros Hrange Hcur Hlow. apply calculate_run_available; [assumption|].
    split; [assumption|]. unfold target_env_attr. rewrite Hrange. assumption.
Qed.

(** ** Modes outside HEAT, COOL and OFF *)

(** X3. In a mode other than OFF, HEAT and COOL (AUTO, DRY, ...) with
    both temperatures present, the demand is still refreshed and divided
    by 100, the valve position is the OFF position 55, and the fan speed
    is the demand percent, not 0.  The demand is any float, or an int
    within float range. *)
Theorem other_modes_close_valve_keep_fan w :
  hvac_mode (self w) <> HVACMode.OFF ->
  hvac_mode (self w) <> HVACMode.HEAT ->
  hvac_mode (self w) <> HVACMode.COOL ->
  temperatures_available w ->
  (forall d, demand w = Int d -> Z.abs d < 2 ^ 960) ->
  _calculate_valve_position w = (Ok 55, refreshed w) /\
  _calculate_fan_speed (refreshed w) = (Ok (demand w), refreshed w).
Proof.
  intros Hoff Hheat Hcool Htemp Hd.
  rewrite (calculate_run_available w Hoff Htemp).
  rewrite fan_speed_run.
  destruct (refreshed_keeps w) as (Hm & _). rewrite Hm.
  destruct (truediv_returns (demand w) Hd) as (f & Hf).
  destruct (hvac_mode (self w)); try contradiction; cbn [band_pipeline HVACMode.eqb];
    rewrite Hf; split; reflexivity.
Qed.

(** ** What the position depends on *)

(** X4. With both temperatures present the valve position depends on the
    mode and on the refreshed demand percent alone: two devices in the
    same mode with the same demand get the same outcome, whatever their
    temperatures, identities, activity or logs. *)
Theorem position_determined_by_mode_and_demand w1 w2 :
  hvac_mode (self w1) = hvac_mode (self w2) ->
  temperatures_available w1 -> temperatures_available w2 ->
  demand w1 = demand w2 ->
  fst (_calculate_valve_position w1) = fst (_calculate_valve_position w2).
Proof.
  intros Hmode Htemp1 Htemp2 Hdemand.
  destruct (HVACMode.eqb (hvac_mode (self w1)) HVACMode.OFF) eqn:Hoff.
  - apply mode_eqb_eq in Hoff.
    unfold _calculate_valve_position, bind, get_self.
    rewrite <- Hmode, Hoff. reflexivity.
  - assert (H1 : hvac_mode (self w1) <> HVACMode.OFF)
      by (intros H; rewrite H in Hoff; discriminate).
    rewrite (calculate_run_available w1 H1 Htemp1).
    rewrite (calculate_run_available w2 ltac:(rewrite <- Hmode; exact H1) Htemp2).
    cbn [fst]. rewrite Hmode, Hdemand. reflexivity.
Qed.

Lemma calculate_ok_range w p w' :
  _calculate_valve_position w = (Ok p, w') -> 20 <= p <= 100.
Proof.
  intros Hrun.
  destruct (HVACMode.eqb (hvac_mode (self w)) HVACMode.OFF) eqn:Hoff.
  - revert Hrun. unfold _calculate_valve_position, bind, get_self. rewrite Hoff.
    unfold ret, OFF_POSITION. intros H. injection H as <- _. lia.
  - assert (Hmode : hvac_mode (self w) <> HVACMode.OFF)
      by (intros H; rewrite H in Hoff; discriminate).
    destruct (cur_temp (environment (self w))) as [current|] eqn:Hcur.
    + destruct (getattr (environment (self w)) (target_env_attr (self w)))
        as [target|] eqn:Htarget.
      * rewrite calculate_run_available in Hrun
          by (try assumption; split; congruence).
        injection Hrun as Hp _. apply band_pipeline_range in Hp. assumption.
      * rewrite fallback_run in Hrun by auto. injection Hrun as <- _. lia.
    + rewrite fallback_run in Hrun by auto. injection Hrun as <- _. lia.
Qed.

(** X5. Whatever the mode, the temperatures and the demand, a position
    returned by [_calculate_valve_position] lies in 20..100, and the
    method changes neither the mode, the identities, the issued calls nor
    the transport. *)
Theorem position_always_in_valve_range w p w' :
  _calculate_valve_position w = (Ok p, w') ->
  20 <= p <= 100 /\
  hvac_mode (self w') = hvac_mode (self w) /\
  valve_entity_id (self w') = valve_entity_id (self w) /\
  fan_entity_id (self w') = fan_entity_id (self w) /\
  calls w' = calls w /\ transport w' = transport w.
Proof.
  intros Hrun.
  split; [exact (calculate_ok_range w p w' Hrun)|].
  pose proof (calculate_keeps w) as Hkeep. rewrite Hrun in Hkeep. exact Hkeep.
Qed.

(** X15. The three bands do not meet, so a returned position tells the
    regime: below 55 the device is in mode COOL, above 55 in mode HEAT,
    and in mode OFF the position is exactly 55. *)
Theorem position_reveals_mode w p w' :
  _calculate_valve_position w = (Ok p, w') ->
  (p < 55 -> hvac_mode (self w) = HVACMode.COOL /\ 20 <= p <= 50) /\
  (55 < p -> hvac_mode (self w) = HVACMode.HEAT /\ 60 <= p <= 100) /\
  (hvac_mode (self w) = HVACMode.OFF -> p = 55).
Proof.
  intros Hrun.
  destruct (HVACMode.eqb (hvac_mode (self w)) HVACMode.OFF) eqn:Hoff.
  - apply mode_eqb_eq in Hoff.
    revert Hrun. unfold _calculate_valve_position, bind, get_self. rewrite Hoff.
    unfold ret, OFF_POSITION. cbn [HVACMode.eqb]. intros H. injection H as <- _.
    repeat split; intros; lia || discriminate || reflexivity.
  - assert (Hmode : hvac_mode (self w) <> HVACMode.OFF)
      by (intros H; rewrite H in Hoff; discriminate).
    assert (Hp : band_pipeline (hvac_mode (self w)) (demand w) = Ok p \/ p = 55).
    { destruct (cur_temp (environment (self w))) as [current|] eqn:Hcur.
      - destruct (getattr (environment (self w)) (target_env_attr (self w)))
          as [target|] eqn:Htarget.
        + rewrite calculate_run_available in Hrun
            by (try assumption; split; congruence).
          injection Hrun as Hp _. left. assumption.
        + rewrite fallback_run in Hrun by auto. injection Hrun as <- _. right. reflexivity.
      - rewrite fallback_run in Hrun by auto. injection Hrun as <- _. right. reflexivity. }
    destruct Hp as [Hp | ->]; [|repeat split; intros; lia || contradiction].
    destruct (hvac_mode (self w)); try contradiction; cbn [band_pipeline] in Hp;
      try (apply cool_pipeline_clamped in Hp);
      try (apply heat_pipeline_clamped in Hp);
      try (destruct (Number.truediv_int (demand w) 100); [|discriminate];
           injection Hp as <-; unfold OFF_POSITION);
      repeat split; intros; try lia; try discriminate.
Qed.

(** The outcome of the method does not depend on what was logged or
    called before. *)
Lemma calculate_fst_extended w cs rs :
  fst (_calculate_valve_position (extended w cs rs)) = fst (_calculate_valve_position w).
Proof.
  destruct (HVACMode.eqb (hvac_mode (self w)) HVACMode.OFF) eqn:Hoff.
  - unfold _calculate_valve_position, bind, get_self, extended. cbn [self].
    rewrite Hoff. reflexivity.
  - assert (Hmode : hvac_mode (self w) <> HVACMode.OFF)
      by (intros H; rewrite H in Hoff; discriminate).
    destruct (cur_temp (environment (self w))) as [current|] eqn:Hcur.
    + destruct (getattr (environment (self w)) (target_env_attr (self w)))
        as [target|] eqn:Htarget.
      * assert (Htemp : temperatures_available w) by (split; congruence).
        rewrite (calculate_run_available w Hmode Htemp).
        rewrite (calculate_run_available (extended w cs rs) Hmode Htemp).
        cbn [fst]. rewrite demand_extended. reflexivity.
      * rewrite (fallback_run w Hmode (or_intror Htarget)).
        rewrite (fallback_run (extended w cs rs) Hmode (or_intror Htarget)).
        reflexivity.
    + rewrite (fallback_run w Hmode (or_introl Hcur)).
      rewrite (fallback_run (extended w cs rs) Hmode (or_introl Hcur)).
      reflexivity.
Qed.

(** ** Sequencing *)

Lemma bind_ok {A B : Type} (c : M Strategy P A) (k : A -> M Strategy P B) w a w' :
  c w = (Ok a, w') -> bind c k w = k a w'.
Proof. intros H. unfold bind. rewrite H. reflexivity. Qed.

Lemma bind_raise {A B : Type} (c : M Strategy P A) (k : A -> M Strategy P B) w e w' :
  c w = (Raise e, w') -> bind c k w = (Raise e, w').
Proof. intros H. unfold bind. rewrite H. reflexivity. Qed.

(** ** Turning on, in general *)

(** Past the identity guard, [async_turn_on] is the four steps run after
    its info record. *)
Lemma turn_on_proceeds w valve fan :
  valve_entity_id (self w) = Some valve ->
  fan_entity_id (self w) = Some fan ->
  async_turn_on w =
    (valve_position <- _calculate_valve_position ;;
     _async_set_valve_position valve_position ;;
     fan_speed <- _calculate_fan_speed ;;
     _async_set_fan_speed fan_speed)
      (logged w [turn_on_record (Some valve) (Some fan)]).
Proof.
  intros Hvalve Hfan.
  unfold async_turn_on, bind at 1 2, get_self at 1, _LOGGER at 1.
  cbn [self calls transport records].
  rewrite Hvalve, Hfan. reflexivity.
Qed.

Lemma commanded_position_valve valve position :
  commanded_position (valve_command valve position) = Some position.
Proof. reflexivity. Qed.

Lemma commanded_position_fan fan speed_percent :
  commanded_position (fan_command fan speed_percent) = None.
Proof. unfold fan_command. destruct (Number.is_zero speed_percent); reflexivity. Qed.

(** The calls of one [async_turn_on], whatever the state and the
    transport: none, the valve call, or the valve call and then the fan
    call. *)
Lemma turn_on_calls w :
  calls (snd (async_turn_on w)) = calls w \/
  exists valve p,
    20 <= p <= 100 /\
    (calls (snd (async_turn_on w)) = valve_command valve p :: calls w \/
     exists fan s,
       calls (snd (async_turn_on w)) =
         fan_command fan s :: valve_command valve p :: calls w).
Proof.
  destruct (valve_entity_id (self w)) as [valve|] eqn:Hvalve.
  2:{ left. unfold async_turn_on, bind, get_self, _LOGGER.
      cbn [self calls transport records]. rewrite Hvalve. reflexivity. }
  destruct (fan_entity_id (self w)) as [fan|] eqn:Hfan.
  2:{ left. unfold async_turn_on, bind, get_self, _LOGGER.
      cbn [self calls transport records]. rewrite Hvalve, Hfan. reflexivity. }
  rewrite (turn_on_proceeds w valve fan Hvalve Hfan).
  set (w0 := logged w [turn_on_record (Some valve) (Some fan)]).
  destruct (calculate_keeps w0) as (_ & Hv & Hf & Hc & Ht).
  destruct (_calculate_valve_position w0) as [[p|e] w1] eqn:Hrun;
    cbn [snd] in Hv, Hf, Hc, Ht.
  2:{ left. rewrite (bind_raise _ _ _ _ _ Hrun). exact Hc. }
  pose proof (calculate_ok_range w0 p w1 Hrun) as Hp.
  right. exists valve, p. split; [exact Hp|].
  rewrite (bind_ok _ _ _ _ _ Hrun).
  pose proof (set_valve_run p w1) as Hset.
  rewrite Hv in Hset. cbn [self w0 logged extended] in Hset.
  rewrite Hvalve, Hc, Ht in Hset. cbn [calls transport w0 logged extended app] in Hset.
  cbn zeta in Hset.
  destruct (transport w (length (calls w)) (valve_command valve p)) as [e|].
  - destruct (is_Exception e).
    + right. rewrite (bind_ok _ _ _ _ _ Hset), (bind_ok _ _ _ _ _ (fan_speed_run _)).
      rewrite set_fan_run. unfold extended. cbn [self calls transport records app].
      rewrite Hf. cbn [self w0 logged extended]. rewrite Hfan. cbn zeta.
      eexists fan, _.
      repeat match goal with
             | |- context [match ?t with Some _ => _ | None => _ end] => destruct t
             | |- context [if is_Exception ?e then _ else _] => destruct (is_Exception e)
             end; cbn [snd calls]; rewrite Hc; reflexivity.
    + left. rewrite (bind_raise _ _ _ _ _ Hset). cbn [snd extended calls app].
      rewrite Hc. reflexivity.
  - right. rewrite (bind_ok _ _ _ _ _ Hset), (bind_ok _ _ _ _ _ (fan_speed_run _)).
    rewrite set_fan_run. unfold extended. cbn [self calls transport records app].
    rewrite Hf. cbn [self w0 logged extended]. rewrite Hfan. cbn zeta.
    eexists fan, _.
    repeat match goal with
           | |- context [match ?t with Some _ => _ | None => _ end] => destruct t
           | |- context [if is_Exception ?e then _ else _] => destruct (is_Exception e)
           end; cbn [snd calls]; rewrite Hc; reflexivity.
Qed.

(** X6. With both identities present, in mode HEAT or COOL with both
    temperatures present and a refreshed demand percent of magnitude below
    2^960, an int or a float, [async_turn_on] commands the valve to the
    position the band arithmetic gives -- the exact position of the band
    when the demand is an integer in 0..100 -- and then, when the valve
    call returns or raises an instance of [Exception], the fan with the
    refreshed demand itself, a float demand as a float; afterwards the
    power manager holds the refreshed demand.  When the valve call raises
    outside [Exception], [async_turn_on] raises the same object and the
    fan is not commanded. *)
Theorem turn_on_tracks_demand w valve fan :
  valve_entity_id (self w) = Some valve ->
  fan_entity_id (self w) = Some fan ->
  hvac_mode (self w) = HVACMode.HEAT \/ hvac_mode (self w) = HVACMode.COOL ->
  temperatures_available w ->
  moderate (demand w) ->
  exists p,
    band_pipeline (hvac_mode (self w)) (demand w) = Ok p /\
    (forall d, demand w = Int d -> 0 <= d <= 100 ->
     p = band_position (hvac_mode (self w)) d) /\
    (next_call_contained w ->
     calls (snd (async_turn_on w)) =
       fan_command fan (demand w) :: valve_command valve p :: calls w /\
     held_demand (snd (async_turn_on w)) = demand w) /\
    (forall e,
       transport w (length (calls w)) (valve_command valve p) = Some e ->
       is_Exception e = false ->
       fst (async_turn_on w) = Raise e /\
       calls (snd (async_turn_on w)) = valve_command valve p :: calls w).
Proof.
  intros Hvalve Hfan Hmode Htemp Hmoderate.
  assert (Hon : hvac_mode (self w) <> HVACMode.OFF)
    by (destruct Hmode as [-> | ->]; discriminate).
  assert (Hoff : HVACMode.eqb (hvac_mode (self w)) HVACMode.OFF = false)
    by (destruct Hmode as [-> | ->]; reflexivity).
  destruct (band_pipeline_returns (hvac_mode (self w)) (demand w) Hmoderate) as [p Hp].
  exists p. split; [exact Hp|]. split.
  { intros d Hd Hrange. rewrite Hd in Hp.
    destruct Hmode as [Hm | Hm]; rewrite Hm in *; cbn [band_pipeline band_position] in *;
      [rewrite heat_pipeline_exact in Hp by assumption
      |rewrite cool_pipeline_exact in Hp by assumption];
      injection Hp as <-; reflexivity. }
  rewrite (turn_on_proceeds w valve fan Hvalve Hfan).
  set (w0 := logged w [turn_on_record (Some valve) (Some fan)]).
  assert (Hdemand : demand w0 = demand w) by apply demand_extended.
  assert (Hrun : _calculate_valve_position w0 = (Ok p, refreshed w0)).
  { rewrite (calculate_run_available w0 Hon Htemp), Hdemand.
    cbn [self w0 logged extended]. rewrite Hp. reflexivity. }
  destruct (refreshed_keeps w0) as (Hm & Hv & Hf & Hc & Ht).
  cbn [self calls transport w0 logged extended app] in Hm, Hv, Hf, Hc, Ht.
  rewrite (bind_ok _ _ _ _ _ Hrun).
  pose proof (set_valve_run p (refreshed w0)) as Hset.
  rewrite Hv, Hvalve, Hc, Ht in Hset. cbn zeta in Hset.
  assert (Hfanrun : forall cs rs,
             _calculate_fan_speed (extended (refreshed w0) cs rs)
             = (Ok (demand w), extended (refreshed w0) cs rs)).
  { intros cs rs. rewrite fan_speed_run. unfold held_demand.
    cbn [self extended]. rewrite Hm, Hoff. fold (demand w0). rewrite Hdemand.
    reflexivity. }
  split.
  - intros Hcontained.
    destruct (transport w (length (calls w)) _) as [e|] eqn:Hout;
      [rewrite (Hcontained _ _ Hout) in Hset|];
      rewrite (bind_ok _ _ _ _ _ Hset), (bind_ok _ _ _ _ _ (Hfanrun _ _));
      rewrite set_fan_run; unfold held_demand, extended;
      cbn [self calls transport records app]; rewrite Hf, Hfan, Hc; cbn zeta;
      repeat match goal with
             | |- context [match ?t with Some _ => _ | None => _ end] => destruct t
             | |- context [if is_Exception ?e then _ else _] => destruct (is_Exception e)
             end; (split; [reflexivity|rewrite <- Hdemand; reflexivity]).
  - intros e Hout Hescapes. rewrite Hout, Hescapes in Hset.
    rewrite (bind_raise _ _ _ _ _ Hset). cbn [fst snd extended calls app].
    rewrite Hc. split; reflexivity.
Qed.

(** X7. With both identities present, in mode OFF [async_turn_on]
    commands the valve to 55 and then, when the valve call returns or
    raises an instance of [Exception], powers the fan off, whatever the
    demand percent and the temperatures.  When the valve call raises
    outside [Exception], [async_turn_on] raises the same object and the
    fan is not commanded.  Either way the power manager is not
    refreshed. *)
Theorem turn_on_in_off_mode w valve fan :
  valve_entity_id (self w) = Some valve ->
  fan_entity_id (self w) = Some fan ->
  hvac_mode (self w) = HVACMode.OFF ->
  (next_call_contained w ->
   calls (snd (async_turn_on w)) =
     fan_off_command fan :: valve_command valve 55 :: calls w /\
   hvac_power (self (snd (async_turn_on w))) = hvac_power (self w)) /\
  (forall e,
     transport w (length (calls w)) (valve_command valve 55) = Some e ->
     is_Exception e = false ->
     fst (async_turn_on w) = Raise e /\
     calls (snd (async_turn_on w)) = valve_command valve 55 :: calls w /\
     hvac_power (self (snd (async_turn_on w))) = hvac_power (self w)).
Proof.
  intros Hvalve Hfan Hmode.
  rewrite (turn_on_proceeds w valve fan Hvalve Hfan).
  set (w0 := logged w [turn_on_record (Some valve) (Some fan)]).
  assert (Hrun : _calculate_valve_position w0 = (Ok 55, w0)).
  { unfold _calculate_valve_position, bind, get_self. cbn [self w0 logged extended].
    rewrite Hmode. reflexivity. }
  rewrite (bind_ok _ _ _ _ _ Hrun).
  pose proof (set_valve_run 55 w0) as Hset.
  cbn [self calls transport w0 logged extended app] in Hset.
  rewrite Hvalve in Hset. cbn zeta in Hset.
  assert (Hfanrun : forall cs rs,
             _calculate_fan_speed (extended w0 cs rs) = (Ok (Int 0), extended w0 cs rs)).
  { intros cs rs. rewrite fan_speed_run. cbn [self extended w0 logged].
    rewrite Hmode. reflexivity. }
  split.
  - intros Hcontained.
    destruct (transport w (length (calls w)) _) as [e|] eqn:Hout;
      [rewrite (Hcontained _ _ Hout) in Hset|];
      rewrite (bind_ok _ _ _ _ _ Hset), (bind_ok _ _ _ _ _ (Hfanrun _ _));
      rewrite set_fan_run; unfold extended, w0, logged, extended;
      cbn [self calls transport records app]; rewrite Hfan; cbn zeta;
      change (fan_command fan (Int 0)) with (fan_off_command fan);
      repeat match goal with
             | |- context [match ?t with Some _ => _ | None => _ end] => destruct t
             | |- context [if is_Exception ?e then _ else _] => destruct (is_Exception e)
             end; split; reflexivity.
  - intros e Hout Hescapes. rewrite Hout, Hescapes in Hset.
    rewrite (bind_raise _ _ _ _ _ Hset). repeat split.
Qed.

(** X8. The position computation of [async_turn_on] is not guarded: when
    [_calculate_valve_position] raises, [async_turn_on] raises the same
    object to its caller and issues no service call at all. *)
Theorem turn_on_computation_failure w valve fan e :
  valve_entity_id (self w) = Some valve ->
  fan_entity_id (self w) = Some fan ->
  fst (_calculate_valve_position w) = Raise e ->
  fst (async_turn_on w) = Raise e /\
  calls (snd (async_turn_on w)) = calls w.
Proof.
  intros Hvalve Hfan Hfail.
  rewrite (turn_on_proceeds w valve fan Hvalve Hfan).
  set (w0 := logged w [turn_on_record (Some valve) (Some fan)]).
  pose proof (calculate_fst_extended w [] [turn_on_record (Some valve) (Some fan)])
    as Hsame.
  fold (logged w [turn_on_record (Some valve) (Some fan)]) in Hsame. fold w0 in Hsame.
  destruct (calculate_keeps w0) as (_ & _ & _ & Hc & _).
  destruct (_calculate_valve_position w0) as [[p|e'] w1] eqn:Hrun;
    cbn [fst snd] in Hsame, Hc; rewrite Hfail in Hsame; [discriminate|].
  injection Hsame as ->.
  rewrite (bind_raise _ _ _ _ _ Hrun). split; [reflexivity|exact Hc].
Qed.

(** ** What the valve is ever told *)

(** The calls of one [async_turn_off], whatever the state and the
    transport. *)
Lemma turn_off_calls w :
  exists new,
    calls (snd (async_turn_off w)) = (new ++ calls w)%list /\
    forall c, In c new ->
      (exists valve, c = valve_command valve OFF_POSITION) \/
      (exists fan, c = fan_off_command fan).
Proof.
  unfold async_turn_off, bind, get_self, _LOGGER at 1.
  cbn [self calls transport records].
  destruct (valve_entity_id (self w)) as [valve|] eqn:Hvalve;
    destruct (fan_entity_id (self w)) as [fan|] eqn:Hfan;
    cbn [is_None negb];
    rewrite ?set_valve_run; unfold ret; cbn [self calls transport records];
    rewrite ?Hvalve; cbn zeta;
    repeat match goal with
           | |- context [transport w ?n ?c] =>
               destruct (transport w n c) as [?e|]
           | |- context [if is_Exception ?e then _ else _] =>
               destruct (is_Exception e)
           | |- context [_async_set_fan_speed ?s ?w'] =>
               rewrite (set_fan_run s w'); unfold extended;
               cbn [self calls transport records app]; rewrite ?Hfan; cbn zeta
           end;
    unfold hvac_power_update, extended;
    cbn [fst snd self calls transport records app];
    unfold fan_command; cbn [Number.is_zero Z.eqb];
    match goal with
    | |- exists new, ?x :: ?y :: calls w = _ /\ _ => exists [x; y]
    | |- exists new, ?x :: calls w = _ /\ _ => exists [x]
    | |- exists new, calls w = _ /\ _ => exists []
    end;
    (split; [reflexivity|]);
    intros c Hin; cbn [In] in Hin;
    repeat match goal with
           | H : _ \/ _ |- _ => destruct H
           | H : False |- _ => contradiction
           end; subst; eauto.
Qed.

(** X9. Whatever the state of the device and whatever the transport
    answers, [async_turn_on] issues at most two calls and [async_turn_off]
    issues calls to the valve and fan only; every position they put in a
    call to the valve lies in 20..100, and [async_turn_off] only ever
    sends 55. *)
Theorem commanded_positions_in_range w :
  (exists new,
     calls (snd (async_turn_on w)) = (new ++ calls w)%list /\
     (length new <= 2)%nat /\
     forall c p, In c new -> commanded_position c = Some p -> 20 <= p <= 100) /\
  (exists new,
     calls (snd (async_turn_off w)) = (new ++ calls w)%list /\
     (length new <= 2)%nat /\
     forall c p, In c new -> commanded_position c = Some p -> p = 55).
Proof.
  split.
  - destruct (turn_on_calls w) as [Hnone | (valve & p & Hp & [Hone | (fan & s & Htwo)])].
    + exists []. split; [exact Hnone|]. split; [cbn; lia|]. intros c q [].
    + exists [valve_command valve p]. split; [exact Hone|]. split; [cbn; lia|].
      intros c q [<- | []] Hq. rewrite commanded_position_valve in Hq.
      injection Hq as <-. exact Hp.
    + exists [fan_command fan s; valve_command valve p].
      split; [exact Htwo|]. split; [cbn; lia|].
      intros c q [<- | [<- | []]] Hq.
      * rewrite commanded_position_fan in Hq. discriminate.
      * rewrite commanded_position_valve in Hq. injection Hq as <-. exact Hp.
  - destruct (turn_off_calls w) as (new & Hcalls & Hnew).
    exists new. split; [exact Hcalls|]. split.
    + apply (f_equal (@length _)) in Hcalls. rewrite length_app in Hcalls.
      revert Hcalls. unfold async_turn_off, bind, get_self, _LOGGER at 1.
      cbn [self calls transport records].
      destruct (valve_entity_id (self w)) as [valve|] eqn:Hvalve;
        destruct (fan_entity_id (self w)) as [fan|] eqn:Hfan;
        cbn [is_None negb];
        rewrite ?set_valve_run; unfold ret; cbn [self calls transport records];
        rewrite ?Hvalve; cbn zeta;
        repeat match goal with
               | |- context [transport w ?n ?c] =>
                   destruct (transport w n c) as [?e|]
               | |- context [if is_Exception ?e then _ else _] =>
                   destruct (is_Exception e)
               | |- context [_async_set_fan_speed ?s ?w'] =>
                   rewrite (set_fan_run s w'); unfold extended;
                   cbn [self calls transport records app]; rewrite ?Hfan; cbn zeta
               end;
        unfold hvac_power_update, extended;
        cbn [fst snd self calls transport records app length]; lia.
    + intros c p Hin Hp. destruct (Hnew c Hin) as [(valve & ->) | (fan & ->)].
      * rewrite commanded_position_valve in Hp. injection Hp as <-. reflexivity.
      * discriminate.
Qed.

(** ** Turning off and the power manager *)

(** X10. When the service calls return or raise instances of [Exception],
    [async_turn_off] ends by notifying the power manager once with the
    action OFF, for the target attribute in force; the mode, the activity
    flag and the environment of the device are left as they were. *)
Theorem turn_off_notifies_power w :
  transport_contained w ->
  hvac_power (self (snd (async_turn_off w))) =
    update_hvac_power (strategy (self w)) (target_env_attr (self w)) HVACAction.OFF
      (environment (self w)) (hvac_power (self w)) /\
  hvac_mode (self (snd (async_turn_off w))) = hvac_mode (self w) /\
  is_active (self (snd (async_turn_off w))) = is_active (self w) /\
  environment (self (snd (async_turn_off w))) = environment (self w).
Proof.
  intros Hcontained.
  assert (Hrun : exists w',
             async_turn_off w = (Ok tt, w') /\
             hvac_power (self w') =
               update_hvac_power (strategy (self w)) (target_env_attr (self w))
                 HVACAction.OFF (environment (self w)) (hvac_power (self w)) /\
             hvac_mode (self w') = hvac_mode (self w) /\
             is_active (self w') = is_active (self w) /\
             environment (self w') = environment (self w)).
  { unfold async_turn_off, bind, get_self, _LOGGER at 1.
    cbn [self calls transport records].
    destruct (valve_entity_id (self w)) as [valve|] eqn:Hvalve;
      destruct (fan_entity_id (self w)) as [fan|] eqn:Hfan;
      cbn [is_None negb];
      rewrite ?set_valve_run; unfold ret; cbn [self calls transport records];
      rewrite ?Hvalve; cbn zeta;
      repeat match goal with
             | |- context [transport w ?n ?c] =>
                 let Hout := fresh "Hout" in
                 destruct (transport w n c) as [?e|] eqn:Hout;
                 [rewrite (Hcontained _ _ _ Hout)|]
             | |- context [_async_set_fan_speed ?s ?w'] =>
                 rewrite (set_fan_run s w'); unfold extended;
                 cbn [self calls transport records app]; rewrite ?Hfan; cbn zeta
             end;
      unfold hvac_power_update, extended;
      cbn [fst snd self calls transport records app];
      eexists; (split; [reflexivity|]); repeat split. }
  destruct Hrun as (w' & -> & Hfacts). exact Hfacts.
Qed.

(** X11. [async_turn_off] raises only what escapes [except Exception],
    and when it does the power manager has not been notified. *)
Theorem turn_off_raises_only_uncaught w e w' :
  async_turn_off w = (Raise e, w') ->
  is_Exception e = false /\ hvac_power (self w') = hvac_power (self w).
Proof.
  unfold async_turn_off, bind, get_self, _LOGGER at 1.
  cbn [self calls transport records].
  destruct (valve_entity_id (self w)) as [valve|] eqn:Hvalve;
    destruct (fan_entity_id (self w)) as [fan|] eqn:Hfan;
    cbn [is_None negb];
    rewrite ?set_valve_run; unfold ret; cbn [self calls transport records];
    rewrite ?Hvalve; cbn zeta;
    repeat match goal with
           | |- context [transport w ?n ?c] =>
               destruct (transport w n c) as [?e|]
           | |- context [if is_Exception ?x then _ else _] =>
               let Hcaught := fresh "Hcaught" in
               destruct (is_Exception x) eqn:Hcaught
           | |- context [_async_set_fan_speed ?s ?w0] =>
               rewrite (set_fan_run s w0); unfold extended;
               cbn [self calls transport records app]; rewrite ?Hfan; cbn zeta
           end;
    unfold hvac_power_update, extended;
    cbn [fst snd self calls transport records app];
    intros Heq; try discriminate; injection Heq as <- <-; split; auto.
Qed.

(** ** The setters and the device *)

(** X12. Whatever the transport answers, a setter changes neither the
    device nor the transport; it raises only what escapes
    [except Exception], and only when its identity is present. *)
Theorem setters_leave_device w position speed_percent :
  (self (snd (_async_set_valve_position position w)) = self w /\
   transport (snd (_async_set_valve_position position w)) = transport w /\
   forall e, fst (_async_set_valve_position position w) = Raise e ->
             is_Exception e = false /\ valve_entity_id (self w) <> None) /\
  (self (snd (_async_set_fan_speed speed_percent w)) = self w /\
   transport (snd (_async_set_fan_speed speed_percent w)) = transport w /\
   forall e, fst (_async_set_fan_speed speed_percent w) = Raise e ->
             is_Exception e = false /\ fan_entity_id (self w) <> None).
Proof.
  rewrite set_valve_run, set_fan_run.
  split.
  - destruct (valve_entity_id (self w)) as [valve|]; cbn zeta;
      [destruct (transport w (length (calls w)) _) as [x|];
       [destruct (is_Exception x) eqn:Hcaught|]|];
      (split; [reflexivity|]); (split; [reflexivity|]);
      cbn [fst]; intros e0 H; try discriminate;
      injection H as <-; split; [assumption|discriminate].
  - destruct (fan_entity_id (self w)) as [fan|]; cbn zeta;
      [destruct (transport w (length (calls w)) _) as [x|];
       [destruct (is_Exception x) eqn:Hcaught|]|];
      (split; [reflexivity|]); (split; [reflexivity|]);
      cbn [fst]; intros e0 H; try discriminate;
      injection H as <-; split; [assumption|discriminate].
Qed.

(** ** The control cycle *)

Lemma control_run (base : M Strategy P unit) w :
  async_control_hvac base w =
    match base (logged w [control_record]) with
    | (Raise e, w1) => (Raise e, w1)
    | (Ok _, w1) =>
        if is_active (self w1) && negb (HVACMode.eqb (hvac_mode (self w1)) HVACMode.OFF)
        then (valve_position <- _calculate_valve_position ;;
              fan_speed <- _calculate_fan_speed ;;
              _async_set_valve_position valve_position ;;
              _async_set_fan_speed fan_speed) w1
        else (Ok tt, w1)
    end.
Proof.
  change (logged w [control_record])
    with {| self := self w; calls := calls w; transport := transport w;
            records := control_record :: records w |}.
  unfold async_control_hvac, bind at 1 2 3, get_self at 1, _LOGGER at 1.
  fold control_record.
  destruct (base _) as [[u|e] w1]; [|reflexivity].
  destruct (is_active (self w1) && negb (HVACMode.eqb (hvac_mode (self w1)) HVACMode.OFF));
    reflexivity.
Qed.

(** X13. [async_control_hvac] runs the base control first and adds
    nothing to it unless the device is then active in a mode other than
    OFF: what the base raises goes straight to the caller, and an inactive
    device or one in mode OFF is left exactly as the base left it. *)
Theorem control_cycle_gates (base : M Strategy P unit) w w1 :
  (forall e,
     base (logged w [control_record]) = (Raise e, w1) ->
     async_control_hvac base w = (Raise e, w1)) /\
  (forall u,
     base (logged w [control_record]) = (Ok u, w1) ->
     is_active (self w1) = false \/ hvac_mode (self w1) = HVACMode.OFF ->
     async_control_hvac base w = (Ok tt, w1)).
Proof.
  split.
  - intros e Hbase. rewrite control_run, Hbase. reflexivity.
  - intros u Hbase Hidle. rewrite control_run, Hbase.
    destruct Hidle as [-> | ->]; [reflexivity|].
    rewrite andb_false_r. reflexivity.
Qed.

(** The position computation returns for every moderate demand. *)
Lemma calculate_returns w :
  moderate (demand w) -> exists p w', _calculate_valve_position w = (Ok p, w').
Proof.
  intros Hd.
  destruct (HVACMode.eqb (hvac_mode (self w)) HVACMode.OFF) eqn:Hoff.
  - unfold _calculate_valve_position, bind, get_self. rewrite Hoff.
    eexists _, _; reflexivity.
  - assert (Hmode : hvac_mode (self w) <> HVACMode.OFF)
      by (intros H; rewrite H in Hoff; discriminate).
    destruct (cur_temp (environment (self w))) as [current|] eqn:Hcur.
    + destruct (getattr (environment (self w)) (target_env_attr (self w)))
        as [target|] eqn:Htarget.
      * rewrite calculate_run_available by (try assumption; split; congruence).
        destruct (band_pipeline_returns (hvac_mode (self w)) (demand w) Hd) as [p ->].
        eexists _, _; reflexivity.
      * rewrite fallback_run by auto. eexists _, _; reflexivity.
    + rewrite fallback_run by auto. eexists _, _; reflexivity.
Qed.

(** X14. When the base control returns and leaves the device active in a
    mode other than OFF, [async_control_hvac] computes the position and
    the fan speed before any call.  When the position computation returns
    -- it does for every demand percent of magnitude below 2^960 -- and
    the service calls return or raise instances of [Exception], the
    method returns normally, having commanded each actuator whose identity
    is present, the valve first: unlike [async_turn_on], a missing fan
    identity does not keep the valve from being commanded, nor a missing
    valve identity the fan.  When the position computation raises, the
    method raises the same object and issues no call. *)
Theorem control_cycle_actuates (base : M Strategy P unit) w u w1 :
  base (logged w [control_record]) = (Ok u, w1) ->
  is_active (self w1) = true ->
  hvac_mode (self w1) <> HVACMode.OFF ->
  (forall p w2,
     _calculate_valve_position w1 = (Ok p, w2) ->
     transport_contained w1 ->
     fst (async_control_hvac base w) = Ok tt /\
     calls (snd (async_control_hvac base w)) =
       (match fan_entity_id (self w1) with
        | Some fan => [fan_command fan (held_demand w2)]
        | None => []
        end ++
        match valve_entity_id (self w1) with
        | Some valve => [valve_command valve p]
        | None => []
        end ++ calls w1)%list) /\
  (forall e w2,
     _calculate_valve_position w1 = (Raise e, w2) ->
     async_control_hvac base w = (Raise e, w2) /\ calls w2 = calls w1) /\
  (moderate (demand w1) -> exists p w2, _calculate_valve_position w1 = (Ok p, w2)).
Proof.
  intros Hbase Hactive Hmode.
  rewrite control_run, Hbase, Hactive.
  assert (Hoff : HVACMode.eqb (hvac_mode (self w1)) HVACMode.OFF = false).
  { destruct (HVACMode.eqb (hvac_mode (self w1)) HVACMode.OFF) eqn:H; [|reflexivity].
    apply mode_eqb_eq in H. contradiction. }
  rewrite Hoff. cbn [andb negb].
  split; [|split].
  - intros p w2 Hrun Hcontained.
    pose proof (calculate_keeps w1) as Hkeep. rewrite Hrun in Hkeep. cbn [snd] in Hkeep.
    destruct Hkeep as (Hm & Hv & Hf & Hc & Ht).
    rewrite (bind_ok _ _ _ _ _ Hrun), (bind_ok _ _ _ _ _ (fan_speed_run w2)).
    rewrite Hm, Hoff.
    unfold bind. rewrite set_valve_run, Hv, Hc, Ht.
    destruct (valve_entity_id (self w1)) as [valve|]; cbn zeta;
      repeat match goal with
             | |- context [transport w1 ?n ?c] =>
                 let Hout := fresh "Hout" in
                 destruct (transport w1 n c) as [?e|] eqn:Hout;
                 [rewrite (Hcontained _ _ _ Hout)|]
             | |- context [_async_set_fan_speed ?s ?w0] =>
                 rewrite (set_fan_run s w0); unfold extended;
                 cbn [self calls transport records app]; rewrite ?Hf, ?Hc, ?Ht; cbn zeta
             end;
      destruct (fan_entity_id (self w1)) as [fan|]; cbn zeta;
      repeat match goal with
             | |- context [transport w1 ?n ?c] =>
                 let Hout := fresh "Hout" in
                 destruct (transport w1 n c) as [?e|] eqn:Hout;
                 [rewrite (Hcontained _ _ _ Hout)|]
             end;
      cbn [fst snd calls app]; rewrite ?Hc; split; reflexivity.
  - intros e w2 Hrun.
    pose proof (calculate_keeps w1) as Hkeep. rewrite Hrun in Hkeep. cbn [snd] in Hkeep.
    destruct Hkeep as (_ & _ & _ & Hc & _).
    rewrite (bind_raise _ _ _ _ _ Hrun). split; [reflexivity|exact Hc].
  - apply calculate_returns.
Qed.

End MoreFacts.

(** * The further facts at concrete zones *)

Lemma reliable_transport_contained (w : World unit Scripted) :
  transport w = reliable -> transport_contained w.
Proof. intros Ht n c e H. rewrite Ht in H. discriminate. Defined.

Lemma range_mode_reads_low_target_witness :
  fst (_calculate_valve_position (ranged_zone HVACMode.HEAT true (Some t20) None)) = Ok 55 /\
  hvac_power (self (snd (_calculate_valve_position
                           (ranged_zone HVACMode.HEAT true (Some t20) None))))
    = {| percent := Int 70; upcoming := [Int 40] |} /\
  fst (_calculate_valve_position (ranged_zone HVACMode.HEAT false None (Some t20))) = Ok 55 /\
  fst (_calculate_valve_position (ranged_zone HVACMode.HEAT true None (Some t20))) = Ok 76.
Proof.
  split; [|split; [|split]].
  - destruct (range_mode_reads_low_target
                (ranged_zone HVACMode.HEAT true (Some t20) None) ltac:(discriminate))
      as (A & _). rewrite (A eq_refl eq_refl). reflexivity.
  - destruct (range_mode_reads_low_target
                (ranged_zone HVACMode.HEAT true (Some t20) None) ltac:(discriminate))
      as (A & _). rewrite (A eq_refl eq_refl). reflexivity.
  - destruct (range_mode_reads_low_target
                (ranged_zone HVACMode.HEAT false None (Some t20)) ltac:(discriminate))
      as (_ & A & _). rewrite (A eq_refl eq_refl). reflexivity.
  - destruct (range_mode_reads_low_target
                (ranged_zone HVACMode.HEAT true None (Some t20)) ltac:(discriminate))
      as (_ & _ & A).
    rewrite (A eq_refl ltac:(discriminate) ltac:(discriminate)). reflexivity.
Defined.

Lemma other_modes_close_valve_keep_fan_witness :
  _calculate_valve_position (zone_at HVACMode.AUTO (Int 40))
    = (Ok 55, refreshed (zone_at HVACMode.AUTO (Int 40))) /\
  _calculate_fan_speed (refreshed (zone_at HVACMode.AUTO (Int 40)))
    = (Ok (Int 40), refreshed (zone_at HVACMode.AUTO (Int 40))) /\
  _calculate_valve_position (zone_at HVACMode.DRY (Float f72_5))
    = (Ok 55, refreshed (zone_at HVACMode.DRY (Float f72_5))) /\
  _calculate_fan_speed (refreshed (zone_at HVACMode.DRY (Float f72_5)))
    = (Ok (Float f72_5), refreshed (zone_at HVACMode.DRY (Float f72_5))).
Proof.
  assert (Hd : forall d, demand (zone_at HVACMode.AUTO (Int 40)) = Int d -> Z.abs d < 2 ^ 960).
  { intros d H. injection H as <-. vm_compute. reflexivity. }
  assert (Hf : forall d, demand (zone_at HVACMode.DRY (Float f72_5)) = Int d ->
                         Z.abs d < 2 ^ 960).
  { intros d H. discriminate H. }
  destruct (other_modes_close_valve_keep_fan (zone_at HVACMode.AUTO (Int 40))
              ltac:(discriminate) ltac:(discriminate) ltac:(discriminate)
              (zone_temperatures_available _ _) Hd) as [A B].
  destruct (other_modes_close_valve_keep_fan (zone_at HVACMode.DRY (Float f72_5))
              ltac:(discriminate) ltac:(discriminate) ltac:(discriminate)
              (zone_temperatures_available _ _) Hf) as [C D].
  split; [exact A|]. split; [exact B|]. split; [exact C|exact D].
Defined.

Lemma position_determined_by_mode_and_demand_witness :
  fst (_calculate_valve_position (zone_with HVACMode.HEAT true t25 t20 (Int 50)))
  = fst (_calculate_valve_position (zone_with HVACMode.HEAT false t20 t25 (Int 50))).
Proof.
  apply position_determined_by_mode_and_demand.
  - reflexivity.
  - split; discriminate.
  - split; discriminate.
  - reflexivity.
Defined.

Lemma position_always_in_valve_range_witness :
  _calculate_valve_position (zone_at HVACMode.COOL (Int 80))
    = (Ok 26, refreshed (zone_at HVACMode.COOL (Int 80))) /\
  20 <= 26 <= 100 /\
  calls (refreshed (zone_at HVACMode.COOL (Int 80))) = calls (zone_at HVACMode.COOL (Int 80)).
Proof.
  assert (Hrun : _calculate_valve_position (zone_at HVACMode.COOL (Int 80))
                 = (Ok 26, refreshed (zone_at HVACMode.COOL (Int 80)))) by reflexivity.
  split; [exact Hrun|].
  destruct (position_always_in_valve_range (zone_at HVACMode.COOL (Int 80)) 26
              (refreshed (zone_at HVACMode.COOL (Int 80))) Hrun)
    as (A & _ & _ & _ & B & _).
  split; [exact A|exact B].
Defined.

Lemma cancelled_at_valve (w : World unit Scripted) :
  transport w = failing CancelledError ->
  forall c, transport w (length (calls w)) c = Some CancelledError.
Proof. intros Ht c. rewrite Ht. reflexivity. Defined.

Lemma turn_on_tracks_demand_witness :
  (calls (snd (async_turn_on (zone_at HVACMode.COOL (Int 80))))
     = [fan_percentage_command "fan.zone" (Int 80); valve_command "valve.zone" 26] /\
   held_demand (snd (async_turn_on (zone_at HVACMode.COOL (Int 80)))) = Int 80) /\
  (calls (snd (async_turn_on (zone_at HVACMode.HEAT (Float f72_5))))
     = [fan_percentage_command "fan.zone" (Float f72_5); valve_command "valve.zone" 89] /\
   held_demand (snd (async_turn_on (zone_at HVACMode.HEAT (Float f72_5)))) = Float f72_5) /\
  (fst (async_turn_on (zone_holding HVACMode.HEAT (Int 50) (failing CancelledError)))
     = Raise CancelledError /\
   calls (snd (async_turn_on (zone_holding HVACMode.HEAT (Int 50) (failing CancelledError))))
     = [valve_command "valve.zone" 80]).
Proof.
  split; [|split].
  - assert (Hd : moderate (demand (zone_at HVACMode.COOL (Int 80))))
      by (vm_compute; reflexivity).
    destruct (turn_on_tracks_demand (zone_at HVACMode.COOL (Int 80)) "valve.zone" "fan.zone"
                eq_refl eq_refl (or_intror eq_refl) (zone_temperatures_available _ _) Hd)
      as (p & Hp & Hexact & Hcalls & _).
    assert (p = 26) as -> by (apply (Hexact 80 eq_refl); lia).
    exact (Hcalls (reliable_contained (zone_at HVACMode.COOL (Int 80)) eq_refl)).
  - assert (Hd : moderate (demand (zone_at HVACMode.HEAT (Float f72_5))))
      by (vm_compute; discriminate).
    destruct (turn_on_tracks_demand (zone_at HVACMode.HEAT (Float f72_5))
                "valve.zone" "fan.zone"
                eq_refl eq_refl (or_introl eq_refl) (zone_temperatures_available _ _) Hd)
      as (p & Hp & _ & Hcalls & _).
    assert (p = 89) as -> by (vm_compute in Hp; injection Hp as <-; reflexivity).
    exact (Hcalls (reliable_contained (zone_at HVACMode.HEAT (Float f72_5)) eq_refl)).
  - assert (Hd : moderate (demand (zone_holding HVACMode.HEAT (Int 50)
                                     (failing CancelledError))))
      by (vm_compute; reflexivity).
    assert (Htemp : temperatures_available
                      (zone_holding HVACMode.HEAT (Int 50) (failing CancelledError)))
      by (split; discriminate).
    destruct (turn_on_tracks_demand
                (zone_holding HVACMode.HEAT (Int 50) (failing CancelledError))
                "valve.zone" "fan.zone"
                eq_refl eq_refl (or_introl eq_refl) Htemp Hd)
      as (p & Hp & Hexact & _ & Hraise).
    assert (p = 80) as -> by (apply (Hexact 50 eq_refl); lia).
    exact (Hraise CancelledError eq_refl eq_refl).
Defined.

Lemma turn_on_in_off_mode_witness :
  (calls (snd (async_turn_on (zone_holding HVACMode.OFF (Int 80) reliable)))
     = [fan_off_command "fan.zone"; valve_command "valve.zone" 55] /\
   hvac_power (self (snd (async_turn_on (zone_holding HVACMode.OFF (Int 80) reliable))))
     = {| percent := Int 80; upcoming := [] |}) /\
  (fst (async_turn_on (zone_holding HVACMode.OFF (Int 80) (failing CancelledError)))
     = Raise CancelledError /\
   calls (snd (async_turn_on (zone_holding HVACMode.OFF (Int 80) (failing CancelledError))))
     = [valve_command "valve.zone" 55]).
Proof.
  split.
  - destruct (turn_on_in_off_mode (zone_holding HVACMode.OFF (Int 80) reliable)
                "valve.zone" "fan.zone" eq_refl eq_refl eq_refl) as [A _].
    exact (A (reliable_contained (zone_holding HVACMode.OFF (Int 80) reliable) eq_refl)).
  - destruct (turn_on_in_off_mode (zone_holding HVACMode.OFF (Int 80) (failing CancelledError))
                "valve.zone" "fan.zone" eq_refl eq_refl eq_refl) as [_ B].
    destruct (B CancelledError eq_refl eq_refl) as (R & C & _).
    split; [exact R|exact C].
Defined.

Lemma turn_on_computation_failure_witness :
  fst (_calculate_valve_position (zone_at HVACMode.COOL (Int (100 * 2 ^ 1024))))
    = Raise OverflowError /\
  fst (async_turn_on (zone_at HVACMode.COOL (Int (100 * 2 ^ 1024)))) = Raise OverflowError /\
  calls (snd (async_turn_on (zone_at HVACMode.COOL (Int (100 * 2 ^ 1024))))) = [].
Proof.
  assert (H : fst (_calculate_valve_position (zone_at HVACMode.COOL (Int (100 * 2 ^ 1024))))
              = Raise OverflowError) by (vm_compute; reflexivity).
  split; [exact H|].
  exact (turn_on_computation_failure (zone_at HVACMode.COOL (Int (100 * 2 ^ 1024)))
           "valve.zone" "fan.zone" OverflowError eq_refl eq_refl H).
Defined.

Lemma turn_off_notifies_power_witness :
  hvac_power (self (snd (async_turn_off (zone_at HVACMode.HEAT (Int 0)))))
    = {| percent := Int 0; upcoming := [] |} /\
  hvac_mode (self (snd (async_turn_off (zone_at HVACMode.HEAT (Int 0))))) = HVACMode.HEAT.
Proof.
  destruct (turn_off_notifies_power (zone_at HVACMode.HEAT (Int 0))
              (reliable_transport_contained (zone_at HVACMode.HEAT (Int 0)) eq_refl))
    as (A & B & _).
  split; [exact A|exact B].
Defined.

Lemma turn_off_raises_only_uncaught_witness :
  fst (async_turn_off (zone_holding HVACMode.HEAT (Int 80) (failing CancelledError)))
    = Raise CancelledError /\
  is_Exception CancelledError = false /\
  hvac_power (self (snd (async_turn_off
                           (zone_holding HVACMode.HEAT (Int 80) (failing CancelledError)))))
    = {| percent := Int 80; upcoming := [] |}.
Proof.
  split; [reflexivity|].
  apply (turn_off_raises_only_uncaught
           (zone_holding HVACMode.HEAT (Int 80) (failing CancelledError)) CancelledError
           (snd (async_turn_off (zone_holding HVACMode.HEAT (Int 80) (failing CancelledError))))).
  reflexivity.
Defined.

Lemma setters_leave_device_witness :
  self (snd (_async_set_valve_position 26
               (zone_holding HVACMode.COOL (Int 80) (failing CancelledError))))
    = self (zone_holding HVACMode.COOL (Int 80) (failing CancelledError)) /\
  is_Exception CancelledError = false.
Proof.
  destruct (setters_leave_device
              (zone_holding HVACMode.COOL (Int 80) (failing CancelledError)) 26 (Int 80))
    as ((A & _ & B) & _).
  split; [exact A|].
  apply (B CancelledError). reflexivity.
Defined.

Lemma control_cycle_gates_witness :
  async_control_hvac cancelled_base (zone_at HVACMode.HEAT (Int 50))
    = (Raise CancelledError, logged (zone_at HVACMode.HEAT (Int 50)) [control_record]) /\
  async_control_hvac idle_base (zone_with HVACMode.HEAT false t25 t20 (Int 50))
    = (Ok tt, logged (zone_with HVACMode.HEAT false t25 t20 (Int 50)) [control_record]) /\
  async_control_hvac idle_base (zone_holding HVACMode.OFF (Int 80) reliable)
    = (Ok tt, logged (zone_holding HVACMode.OFF (Int 80) reliable) [control_record]).
Proof.
  split; [|split].
  - apply (control_cycle_gates cancelled_base (zone_at HVACMode.HEAT (Int 50))). reflexivity.
  - apply (proj2 (control_cycle_gates idle_base (zone_with HVACMode.HEAT false t25 t20 (Int 50))
                    (logged (zone_with HVACMode.HEAT false t25 t20 (Int 50)) [control_record]))
             tt eq_refl). left. reflexivity.
  - apply (proj2 (control_cycle_gates idle_base (zone_holding HVACMode.OFF (Int 80) reliable)
                    (logged (zone_holding HVACMode.OFF (Int 80) reliable) [control_record]))
             tt eq_refl). right. reflexivity.
Defined.

Lemma control_cycle_actuates_witness :
  (fst (async_control_hvac idle_base
          (blind_zone HVACMode.HEAT (Some "valve.zone") None reliable)) = Ok tt /\
   calls (snd (async_control_hvac idle_base
                 (blind_zone HVACMode.HEAT (Some "valve.zone") None reliable)))
     = [valve_command "valve.zone" 55]) /\
  calls (snd (async_turn_on (blind_zone HVACMode.HEAT (Some "valve.zone") None reliable)))
    = [] /\
  (fst (async_control_hvac idle_base (zone_at HVACMode.COOL (Int (10 ^ 310))))
     = Raise OverflowError /\
   calls (snd (async_control_hvac idle_base (zone_at HVACMode.COOL (Int (10 ^ 310))))) = []) /\
  (exists p w2,
     _calculate_valve_position (logged (zone_at HVACMode.COOL (Float f72_5)) [control_record])
       = (Ok p, w2)).
Proof.
  split; [|split; [|split]].
  - destruct (control_cycle_actuates idle_base
                (blind_zone HVACMode.HEAT (Some "valve.zone") None reliable)
                tt
                (logged (blind_zone HVACMode.HEAT (Some "valve.zone") None reliable)
                   [control_record])
                eq_refl eq_refl ltac:(discriminate)) as (A & _).
    exact (A 55
             (snd (_calculate_valve_position
                     (logged (blind_zone HVACMode.HEAT (Some "valve.zone") None reliable)
                        [control_record])))
             eq_refl
             (reliable_transport_contained
                (logged (blind_zone HVACMode.HEAT (Some "valve.zone") None reliable)
                   [control_record]) eq_refl)).
  - reflexivity.
  - assert (Hrun : _calculate_valve_position
                     (logged (zone_at HVACMode.COOL (Int (10 ^ 310))) [control_record])
                   = (Raise OverflowError,
                      refreshed (logged (zone_at HVACMode.COOL (Int (10 ^ 310)))
                                   [control_record])))
      by (vm_compute; reflexivity).
    destruct (control_cycle_actuates idle_base
                (zone_at HVACMode.COOL (Int (10 ^ 310)))
                tt
                (logged (zone_at HVACMode.COOL (Int (10 ^ 310))) [control_record])
                eq_refl eq_refl ltac:(discriminate)) as (_ & B & _).
    destruct (B OverflowError _ Hrun) as [R C].
    rewrite R. split; [reflexivity|exact C].
  - destruct (control_cycle_actuates idle_base
                (zone_at HVACMode.COOL (Float f72_5))
                tt
                (logged (zone_at HVACMode.COOL (Float f72_5)) [control_record])
                eq_refl eq_refl ltac:(discriminate)) as (_ & _ & C).
    apply C. vm_compute. discriminate.
Defined.

Lemma position_reveals_mode_witness :
  _calculate_valve_position (zone_at HVACMode.COOL (Int 80))
    = (Ok 26, refreshed (zone_at HVACMode.COOL (Int 80))) /\
  hvac_mode (self (zone_at HVACMode.COOL (Int 80))) = HVACMode.COOL /\
  20 <= 26 <= 50.
Proof.
  assert (Hrun : _calculate_valve_position (zone_at HVACMode.COOL (Int 80))
                 = (Ok 26, refreshed (zone_at HVACMode.COOL (Int 80)))) by reflexivity.
  split; [exact Hrun|].
  destruct (position_reveals_mode (zone_at HVACMode.COOL (Int 80)) 26
              (refreshed (zone_at HVACMode.COOL (Int 80))) Hrun) as (A & _).
  apply A. lia.
Defined.
